(** * DocAI disease-prediction service: a shallow embedding of [main.py]

    The service vectorizes a list of symptom names against the symptom
    schema loaded at startup, runs a pre-trained classifier on the vector,
    turns the logits into probabilities and reports the three most likely
    diseases.

    Conventions of the embedding.
    - A Python [str] is a Rocq [string] whose characters are the code
      points below 256 (Latin-1); [str.lower] and [str.strip] are given on
      that range by the tables of CPython.
    - A float is the rational it denotes ([Q]); NaN and the infinities have
      no counterpart.
    - The classifier ([model.predict]), [tf.nn.softmax] and [np.argsort]
      belong to TensorFlow and NumPy: they are parameters of the
      development, constrained only by their documented contracts.
    - A Python exception is a value of [exn]; code that may raise returns a
      [result].  Handlers run in the monad [M], which threads the log of
      the calls made to the vectorizer and to the classifier.
    - Console output ([print]) is left out; what a [print] evaluates is
      kept. *)

From Stdlib Require Import QArith Lqa Ascii String List Lia.
From Stdlib Require Import Sorting.Sorted Sorting.Permutation.
From stdpp Require Import base option list strings gmap sorting pretty.

Local Open Scope string_scope.
Local Open Scope list_scope.

(** ** Python strings *)

Module PyStr.

(** [chr(n).lower()] for [n < 256]: A-Z and the Latin-1 capitals
    U+00C0..U+00DE (U+00D7, the multiplication sign, has no case). *)
Definition lower_char (c : ascii) : ascii :=
  let n := N_of_ascii c in
  if ((65 <=? n) && (n <=? 90)
      || (192 <=? n) && (n <=? 222) && negb (n =? 215))%N
  then ascii_of_N (n + 32)
  else c.

(** [chr(n).isspace()] for [n < 256]: TAB..CR, FS..US, SPACE, NEL, NBSP. *)
Definition isspace (c : ascii) : bool :=
  let n := N_of_ascii c in
  ((9 <=? n) && (n <=? 13) || (28 <=? n) && (n <=? 32)
   || (n =? 133) || (n =? 160))%N.

(** [s.lower()] *)
Fixpoint lower (s : string) : string :=
  match s with
  | EmptyString => EmptyString
  | String c r => String (lower_char c) (lower r)
  end.

(** [s.lstrip()] *)
Fixpoint lstrip (s : string) : string :=
  match s with
  | EmptyString => EmptyString
  | String c r => if isspace c then lstrip r else s
  end.

(** [s.rstrip()] *)
Fixpoint rstrip (s : string) : string :=
  match s with
  | EmptyString => EmptyString
  | String c r =>
      match rstrip r with
      | EmptyString => if isspace c then EmptyString else String c EmptyString
      | r' => String c r'
      end
  end.

(** [s.strip()] *)
Definition strip (s : string) : string := lstrip (rstrip s).

(** [x in xs] for a list of strings: [==] on each element in turn. *)
Definition contains (xs : list string) (x : string) : bool :=
  existsb (String.eqb x) xs.

(** [ch in s] for a character. *)
Fixpoint has_char (ch : ascii) (s : string) : bool :=
  match s with
  | EmptyString => false
  | String c r => Ascii.eqb c ch || has_char ch r
  end.

Definition squote : ascii := ascii_of_N 39.
Definition dquote : ascii := ascii_of_N 34.
Definition backslash : ascii := ascii_of_N 92.

(** [chr(n).isprintable()] for [n < 256]: the ASCII range from SPACE to
    the tilde, and Latin-1 from U+00A1 on without the soft hyphen. *)
Definition isprintable (c : ascii) : bool :=
  let n := N_of_ascii c in
  ((32 <=? n) && (n <? 127) || (161 <=? n) && negb (n =? 173))%N.

Definition hexdigit (n : N) : ascii :=
  ascii_of_N (if (n <? 10)%N then 48 + n else 87 + n).

(** One character of [repr(s)] inside the quotes [quote]. *)
Definition repr_char (quote c : ascii) : string :=
  let n := N_of_ascii c in
  if Ascii.eqb c quote || Ascii.eqb c backslash
  then String backslash (String c EmptyString)
  else if (n =? 9)%N then String backslash "t"
  else if (n =? 10)%N then String backslash "n"
  else if (n =? 13)%N then String backslash "r"
  else if isprintable c then String c EmptyString
  else String backslash
         (String "x"
            (String (hexdigit (n / 16))
               (String (hexdigit (n mod 16)) EmptyString))).

Fixpoint repr_chars (quote : ascii) (s : string) : string :=
  match s with
  | EmptyString => EmptyString
  | String c r => repr_char quote c ++ repr_chars quote r
  end.

(** [repr(s)]: single quotes, unless [s] holds a single quote and no
    double quote; the quote in use and the backslash are escaped, and so
    is what is not printable. *)
Definition repr (s : string) : string :=
  let quote :=
    if has_char squote s && negb (has_char dquote s) then dquote else squote in
  String quote (repr_chars quote s ++ String quote EmptyString).

End PyStr.

(** ** Exceptions and results *)

Inductive exn : Type :=
| FileNotFoundError (msg : string)
| KeyError (key : string)
| TypeError (msg : string)
| IndexError (msg : string)
| HTTPException (status_code : Z) (detail : string)
| LibraryError (msg : string).

(** [str(e)]; for a [KeyError] it is the [repr] of the key. *)
Definition str (e : exn) : string :=
  match e with
  | FileNotFoundError msg | TypeError msg | IndexError msg
  | LibraryError msg => msg
  | KeyError key => PyStr.repr key
  | HTTPException status_code detail => pretty status_code ++ ": " ++ detail
  end.

Inductive result (A : Type) : Type :=
| Ok (a : A)
| Raise (e : exn).
Arguments Ok {A} a.
Arguments Raise {A} e.

(** ** The external collaborators *)

(** A loaded Keras model: [predict] maps a batch of input rows to a batch
    of logit rows, or raises. *)
Record KerasModel : Type := { predict : list (list Q) → result (list (list Q)) }.

(** The two library functions the handlers call on arrays:
    [tf.nn.softmax] (row-wise, on a batch) and [np.argsort] (on a vector,
    ascending, order of ties left to the sorting kernel). *)
Class Runtime : Type := {
  tf_nn_softmax : list (list Q) → list (list Q);
  np_argsort : list Q → list nat
}.

(** ** Process-wide state *)

(** The module globals [model], [symptom_columns], [disease_labels];
    [None] is Python's [None]. *)
Record Globals : Type := {
  model : option KerasModel;
  symptom_columns : option (list string);
  disease_labels : option (list string)
}.

Definition initial_globals : Globals :=
  {| model := None; symptom_columns := None; disease_labels := None |}.

(** ** The handler monad *)

Inductive Event : Type :=
| CallPreprocess (symptoms : list string)
| CallPredict (input_vector : list (list Q)).

Definition M (A : Type) : Type := list Event → result A * list Event.

Definition ret {A} (a : A) : M A := λ log, (Ok a, log).
Definition raise {A} (e : exn) : M A := λ log, (Raise e, log).
Definition bind {A B} (m : M A) (k : A → M B) : M B :=
  λ log, match m log with
         | (Ok a, log') => k a log'
         | (Raise e, log') => (Raise e, log')
         end.
Definition tell (ev : Event) : M unit := λ log, (Ok tt, log ++ [ev]).
Definition lift {A} (r : result A) : M A := λ log, (r, log).

(** [try: body / except Exception as e: handler e] *)
Definition try_except {A} (body : M A) (handler : exn → M A) : M A :=
  λ log, match body log with
         | (Ok a, log') => (Ok a, log')
         | (Raise e, log') => handler e log'
         end.

#[global] Instance M_ret : MRet M := @ret.
#[global] Instance M_bind : MBind M := λ A B k m, bind m k.

(** [for x in xs: acc = body acc x] *)
Fixpoint for_each {A B} (body : B → A → M B) (acc : B) (xs : list A) : M B :=
  match xs with
  | [] => ret acc
  | x :: xs' => acc' ← body acc x; for_each body acc' xs'
  end.

(** Running a handler on a fresh log. *)
Definition run {A} (m : M A) : result A * list Event := m [].

(** ** Array and list primitives *)

(** [np.zeros(n)] *)
Definition np_zeros (n : nat) : list Q := replicate n 0%Q.

(** [enumerate(xs)] *)
Definition enumerate {A} (xs : list A) : list (nat * A) :=
  zip (seq 0 (length xs)) xs.

(** [a.reshape(1, -1)]: the vector as the single row of a matrix. *)
Definition reshape_1 (a : list Q) : list (list Q) := [a].

(** [a[-n:]] *)
Definition slice_last {A} (n : nat) (a : list A) : list A :=
  drop (length a - n) a.

(** [a[::-1]] *)
Definition reversed {A} (a : list A) : list A := reverse a.

(** [a[i]] on a NumPy array, for an index [i >= 0]. *)
Definition np_getitem {A} (a : list A) (i : nat) : result A :=
  match a !! i with
  | Some x => Ok x
  | None =>
      Raise (IndexError ("index " ++ pretty i
                         ++ " is out of bounds for axis 0 with size "
                         ++ pretty (length a)))
  end.

(** [xs[i]] on a global that holds a list or [None], for [i >= 0]. *)
Definition list_getitem {A} (xs : option (list A)) (i : nat) : result A :=
  match xs with
  | None => Raise (TypeError "'NoneType' object is not subscriptable")
  | Some l =>
      match l !! i with
      | Some x => Ok x
      | None => Raise (IndexError "list index out of range")
      end
  end.

(** ** Responses *)

(** An entry of [top_3_predictions]. *)
Module Prediction.
Record t : Type := { disease : string; confidence : Q }.
End Prediction.

Module PredictionResponse.
Record t : Type := {
  predicted_disease : string;
  confidence : Q;
  top_3_predictions : list Prediction.t
}.
End PredictionResponse.

(** An entry of the batch endpoint's [predictions]. *)
Module BatchItem.
Record t : Type := {
  symptoms : list string;
  predicted_disease : string;
  confidence : Q;
  top_3_predictions : list Prediction.t
}.

(** The three prediction fields of a batch entry. *)
Definition prediction (r : t) : PredictionResponse.t :=
  {| PredictionResponse.predicted_disease := predicted_disease r;
     PredictionResponse.confidence := confidence r;
     PredictionResponse.top_3_predictions := top_3_predictions r |}.
End BatchItem.

(** ** The vectorizer and the two prediction endpoints *)

Section Service.
Context `{Runtime}.

(** [s.lower().strip()] *)
Definition normalize (s : string) : string := PyStr.strip (PyStr.lower s).

Definition preprocess_symptoms (g : Globals) (symptoms : list string)
  : result (list (list Q)) :=
  match symptom_columns g with
  | None => Raise (TypeError "object of type 'NoneType' has no len()")
  | Some columns =>
      let symptom_vector := np_zeros (length columns) in
      let normalized_symptoms := map normalize symptoms in
      let symptom_vector :=
        fold_left
          (λ vec '(idx, symptom_col),
             let normalized_col := normalize symptom_col in
             if PyStr.contains normalized_symptoms normalized_col
             then <[idx := 1%Q]> vec
             else vec)
          (enumerate columns) symptom_vector in
      Ok (reshape_1 symptom_vector)
  end.

(** The loop that fills [top_3_predictions]. *)
Definition collect_top_3 (g : Globals) (probabilities : list Q)
    (top_3_indices : list nat) : M (list Prediction.t) :=
  for_each
    (λ top_3_predictions idx,
       d ← lift (list_getitem (disease_labels g) idx);
       c ← lift (np_getitem probabilities idx);
       mret (top_3_predictions
               ++ [{| Prediction.disease := d; Prediction.confidence := c |}]))
    [] top_3_indices.

(** [POST /predict] *)
Definition predict_disease (g : Globals) (request_symptoms : list string)
  : M PredictionResponse.t :=
  match model g with
  | None => raise (HTTPException 500 "Model not loaded")
  | Some m =>
      match request_symptoms with
      | [] => raise (HTTPException 400 "No symptoms provided")
      | _ :: _ =>
          try_except
            (tell (CallPreprocess request_symptoms);;
             input_vector ← lift (preprocess_symptoms g request_symptoms);
             tell (CallPredict input_vector);;
             logits ← lift (predict m input_vector);
             probabilities ← lift (np_getitem (tf_nn_softmax logits) 0);
             let top_3_indices :=
               reversed (slice_last 3 (np_argsort probabilities)) in
             top_3_predictions ←
               collect_top_3 g probabilities top_3_indices;
             top_prediction_idx ← lift (np_getitem top_3_indices 0);
             predicted_disease ←
               lift (list_getitem (disease_labels g) top_prediction_idx);
             confidence ←
               lift (np_getitem probabilities top_prediction_idx);
             mret {| PredictionResponse.predicted_disease := predicted_disease;
                     PredictionResponse.confidence := confidence;
                     PredictionResponse.top_3_predictions :=
                       top_3_predictions |})
            (λ e, raise (HTTPException 500 ("Prediction error: " ++ str e)))
      end
  end.

(** The body of the batch endpoint's loop, for one symptom list. *)
Definition batch_step (g : Globals) (m : KerasModel)
    (results : list BatchItem.t) (symptoms : list string)
  : M (list BatchItem.t) :=
  tell (CallPreprocess symptoms);;
  input_vector ← lift (preprocess_symptoms g symptoms);
  tell (CallPredict input_vector);;
  logits ← lift (predict m input_vector);
  probabilities ← lift (np_getitem (tf_nn_softmax logits) 0);
  let top_3_indices := reversed (slice_last 3 (np_argsort probabilities)) in
  top_3_predictions ← collect_top_3 g probabilities top_3_indices;
  i0 ← lift (np_getitem top_3_indices 0);
  predicted_disease ← lift (list_getitem (disease_labels g) i0);
  i0' ← lift (np_getitem top_3_indices 0);
  confidence ← lift (np_getitem probabilities i0');
  mret (results
          ++ [{| BatchItem.symptoms := symptoms;
                 BatchItem.predicted_disease := predicted_disease;
                 BatchItem.confidence := confidence;
                 BatchItem.top_3_predictions := top_3_predictions |}]).

(** [POST /predict/batch] *)
Definition predict_disease_batch (g : Globals)
    (symptoms_list : list (list string)) : M (list BatchItem.t) :=
  match model g with
  | None => raise (HTTPException 500 "Model not loaded")
  | Some m =>
      try_except
        (for_each (batch_step g m) [] symptoms_list)
        (λ e, raise (HTTPException 500
                       ("Batch prediction error: " ++ str e)))
  end.

End Service.

(** ** Startup *)

(** A JSON document as [json.load] returns it: [None], [bool], [int],
    [float], [str], [list] or [dict] (the items of the dict, whose keys
    are distinct). *)
#[warnings="-register-all"]
Inductive json : Type :=
| JNull
| JBool (b : bool)
| JInt (n : Z)
| JFloat (q : Q)
| JString (s : string)
| JArray (elements : list json)
| JObject (items : list (string * json)).

(** [type(v).__name__] *)
Definition type_name (v : json) : string :=
  match v with
  | JNull => "NoneType"
  | JBool _ => "bool"
  | JInt _ => "int"
  | JFloat _ => "float"
  | JString _ => "str"
  | JArray _ => "list"
  | JObject _ => "dict"
  end.

(** The value a dict holds under [key]. *)
Fixpoint dict_get (items : list (string * json)) (key : string) : option json :=
  match items with
  | [] => None
  | (k, v) :: rest => if String.eqb k key then Some v else dict_get rest key
  end.

(** [v[key]] for a string [key] (the messages are those of CPython 3.11
    and later). *)
Definition py_getitem (v : json) (key : string) : result json :=
  match v with
  | JObject items =>
      match dict_get items key with
      | Some x => Ok x
      | None => Raise (KeyError key)
      end
  | JArray _ =>
      Raise (TypeError "list indices must be integers or slices, not str")
  | JString _ =>
      Raise (TypeError "string indices must be integers, not 'str'")
  | _ =>
      Raise (TypeError ("'" ++ type_name v ++ "' object is not subscriptable"))
  end.

(** [len(v)] *)
Definition py_len (v : json) : result nat :=
  match v with
  | JString s => Ok (String.length s)
  | JArray elements => Ok (length elements)
  | JObject items => Ok (length items)
  | _ =>
      Raise (TypeError ("object of type '" ++ type_name v ++ "' has no len()"))
  end.

(** What the process sees of its surroundings at startup: the environment
    (after [load_dotenv]), the file system, the Keras loader, and [open]
    followed by [json.load]. *)
Record World : Type := {
  environ : gmap string string;
  os_path_exists : string → bool;
  load_model : string → result KerasModel;
  json_load : string → result json
}.

(** [os.getenv(key, fallback)] *)
Definition getenv (w : World) (key fallback : string) : string :=
  match environ w !! key with
  | Some v => v
  | None => fallback
  end.

Definition ENVIRONMENT (w : World) : string := getenv w "ENVIRONMENT" "development".
Definition MODEL_PATH (w : World) : string := getenv w "MODEL_PATH" "model10.keras".
Definition METADATA_PATH (w : World) : string :=
  getenv w "METADATA_PATH" "model_metadata.json".

(** The module globals as startup assigns them: the two metadata values
    are whatever the file holds under their keys. *)
Record RawGlobals : Type := {
  raw_model : option KerasModel;
  raw_symptom_columns : option json;
  raw_disease_labels : option json
}.

(** A list of names as a JSON value, and back. *)
Definition names (l : list string) : json := JArray (map JString l).

Fixpoint strings_of (elements : list json) : option (list string) :=
  match elements with
  | [] => Some []
  | JString s :: rest =>
      match strings_of rest with
      | Some l => Some (s :: l)
      | None => None
      end
  | _ :: _ => None
  end.

Definition names_of (v : json) : option (list string) :=
  match v with
  | JArray elements => strings_of elements
  | _ => None
  end.

(** The globals the handlers are written for, seen as raw globals... *)
Definition raw (g : Globals) : RawGlobals :=
  {| raw_model := model g;
     raw_symptom_columns := names <$> symptom_columns g;
     raw_disease_labels := names <$> disease_labels g |}.

(** ... and raw globals read as such, when each metadata value is unset
    or a list of strings. *)
Definition typed (r : RawGlobals) : option Globals :=
  match raw_symptom_columns r, raw_disease_labels r with
  | None, None =>
      Some {| model := raw_model r;
              symptom_columns := None; disease_labels := None |}
  | Some c, None =>
      match names_of c with
      | Some columns =>
          Some {| model := raw_model r;
                  symptom_columns := Some columns; disease_labels := None |}
      | None => None
      end
  | None, Some d =>
      match names_of d with
      | Some labels =>
          Some {| model := raw_model r;
                  symptom_columns := None; disease_labels := Some labels |}
      | None => None
      end
  | Some c, Some d =>
      match names_of c, names_of d with
      | Some columns, Some labels =>
          Some {| model := raw_model r;
                  symptom_columns := Some columns;
                  disease_labels := Some labels |}
      | _, _ => None
      end
  end.

(** The [try] block of [lifespan]: the globals are assigned one by one, so
    an exception leaves the earlier assignments in place.  Of the [print]
    calls only what they evaluate is kept: [len(symptom_columns)] and
    [len(disease_labels)], which raise on a value without a length. *)
Definition lifespan_try (w : World) (g : RawGlobals)
  : result unit * RawGlobals :=
  if negb (os_path_exists w (MODEL_PATH w)) then
    (Raise (FileNotFoundError ("Model file not found: " ++ MODEL_PATH w)), g)
  else
    match load_model w (MODEL_PATH w) with
    | Raise e => (Raise e, g)
    | Ok m =>
        let g := {| raw_model := Some m;
                    raw_symptom_columns := raw_symptom_columns g;
                    raw_disease_labels := raw_disease_labels g |} in
        if negb (os_path_exists w (METADATA_PATH w)) then
          (Raise (FileNotFoundError
                    ("Metadata file not found: " ++ METADATA_PATH w)), g)
        else
          match json_load w (METADATA_PATH w) with
          | Raise e => (Raise e, g)
          | Ok metadata =>
              match py_getitem metadata "symptom_columns" with
              | Raise e => (Raise e, g)
              | Ok columns =>
                  let g := {| raw_model := raw_model g;
                              raw_symptom_columns := Some columns;
                              raw_disease_labels := raw_disease_labels g |} in
                  match py_len columns with
                  | Raise e => (Raise e, g)
                  | Ok _ =>
                      match py_getitem metadata "disease_labels" with
                      | Raise e => (Raise e, g)
                      | Ok labels =>
                          let g :=
                            {| raw_model := raw_model g;
                               raw_symptom_columns := raw_symptom_columns g;
                               raw_disease_labels := Some labels |} in
                          match py_len labels with
                          | Raise e => (Raise e, g)
                          | Ok _ => (Ok tt, g)
                          end
                      end
                  end
              end
          end
    end.

(** [lifespan] up to its [yield]: both [except] clauses report the
    exception and re-raise it. *)
Definition lifespan (w : World) (g : RawGlobals) : result unit * RawGlobals :=
  match lifespan_try w g with
  | (Raise (FileNotFoundError msg), g') => (Raise (FileNotFoundError msg), g')
  | (Raise e, g') => (Raise e, g')
  | (Ok tt, g') => (Ok tt, g')
  end.

(** ** The remaining endpoints and the server *)

Inductive Body : Type :=
| RootBody (message status : string) (model_loaded : bool)
    (environment version : string)
| HealthBody (status : string)
    (model_loaded symptoms_loaded diseases_loaded : bool)
    (total_symptoms total_diseases : nat)
| SymptomsBody (symptoms : list string) (total : nat)
| DiseasesBody (diseases : list string) (total : nat)
| PredictBody (response : PredictionResponse.t)
| BatchBody (predictions : list BatchItem.t).

Inductive Request : Type :=
| GET_root
| GET_health
| GET_symptoms
| GET_diseases
| POST_predict (symptoms : list string)
| POST_predict_batch (symptoms_list : list (list string)).

Inductive HttpResponse : Type :=
| Response (status_code : Z) (body : Body)
| ErrorResponse (status_code : Z) (detail : string).

(** [len(xs) if xs else 0] *)
Definition len_or_0 {A} (xs : option (list A)) : nat :=
  match xs with
  | Some l => length l
  | None => 0
  end.

Definition root (w : World) (g : Globals) : M Body :=
  mret (RootBody "Disease Prediction API is running" "healthy"
          (bool_decide (is_Some (model g))) (ENVIRONMENT w) "1.0.0").

Definition health_check (g : Globals) : M Body :=
  mret (HealthBody
          (if bool_decide (is_Some (model g)) then "healthy" else "unhealthy")
          (bool_decide (is_Some (model g)))
          (bool_decide (is_Some (symptom_columns g)))
          (bool_decide (is_Some (disease_labels g)))
          (len_or_0 (symptom_columns g)) (len_or_0 (disease_labels g))).

Definition get_symptoms (g : Globals) : M Body :=
  match symptom_columns g with
  | None => raise (HTTPException 500 "Symptom data not loaded")
  | Some columns => mret (SymptomsBody columns (length columns))
  end.

Definition get_diseases (g : Globals) : M Body :=
  match disease_labels g with
  | None => raise (HTTPException 500 "Disease data not loaded")
  | Some labels => mret (DiseasesBody labels (length labels))
  end.

Inductive ServerRun : Type :=
| StartupFailed (e : exn)
| Served (responses : list HttpResponse)
| ServedUntyped (g : RawGlobals).

Section Server.
Context `{Runtime}.

Definition dispatch (w : World) (g : Globals) (req : Request) : M Body :=
  match req with
  | GET_root => root w g
  | GET_health => health_check g
  | GET_symptoms => get_symptoms g
  | GET_diseases => get_diseases g
  | POST_predict symptoms =>
      r ← predict_disease g symptoms; mret (PredictBody r)
  | POST_predict_batch l =>
      r ← predict_disease_batch g l; mret (BatchBody r)
  end.

(** The framework turns an [HTTPException] into a response with its
    status and detail, and anything else that escapes into a plain 500.
    A body that the handler returns is encoded as JSON and sent with
    status 200; the encoder refuses NaN and the infinities only, which no
    body of this development holds, its numbers being rationals. *)
Definition respond (w : World) (g : Globals) (req : Request) : HttpResponse :=
  match run (dispatch w g req) with
  | (Ok body, _) => Response 200 body
  | (Raise (HTTPException status_code detail), _) =>
      ErrorResponse status_code detail
  | (Raise _, _) => ErrorResponse 500 "Internal Server Error"
  end.

(** The ASGI lifespan protocol as the server runs it: the startup half of
    [lifespan] runs first; when it raises, the server reports the failed
    startup and exits without accepting a connection; otherwise every
    request is answered against the globals that startup left.  The
    handlers are written for metadata that holds lists of strings; when
    startup leaves anything else that has a length (a string, a dict, a
    list with other elements), the run is reported as [ServedUntyped] and
    its answers are not described. *)
Definition serve (w : World) (requests : list Request) : ServerRun :=
  match lifespan w (raw initial_globals) with
  | (Raise e, _) => StartupFailed e
  | (Ok tt, r) =>
      match typed r with
      | Some g => Served (map (respond w g) requests)
      | None => ServedUntyped r
      end
  end.

End Server.

(** ** Contracts of the collaborators *)

(** The entry of [p] at index [i] (0 beyond the end). *)
Definition value_at (p : list Q) (i : nat) : Q := default 0%Q (p !! i).

Definition in_unit_interval (x : Q) : Prop := (0 <= x)%Q ∧ (x <= 1)%Q.

(** [np.argsort] returns the indices of its argument, ordered so that the
    values they select ascend; [tf.nn.softmax] keeps the shape of its
    argument and yields numbers between 0 and 1. *)
Class RuntimeContract `{Runtime} : Prop := {
  argsort_permutation : ∀ p, np_argsort p ≡ₚ seq 0 (length p);
  argsort_ascending : ∀ p,
    StronglySorted (λ i j, (value_at p i <= value_at p j)%Q) (np_argsort p);
  softmax_shape : ∀ rows,
    Forall2 (λ row p, length p = length row) rows (tf_nn_softmax rows);
  softmax_range : ∀ rows, Forall (Forall in_unit_interval) (tf_nn_softmax rows)
}.

(** A classifier from [n] features to [k] classes: on every batch of rows
    of width [n] it returns as many rows of [k] logits. *)
Definition Classifier (n k : nat) (m : KerasModel) : Prop :=
  ∀ rows, Forall (λ row, length row = n) rows →
    ∃ logits, predict m rows = Ok logits
              ∧ Forall2 (λ _ out, length out = k) rows logits.

(** Confidences in descending order, ties allowed, and without ties. *)
Definition descending (cs : list Q) : Prop :=
  StronglySorted (λ a b, (b <= a)%Q) cs.
Definition strictly_descending (cs : list Q) : Prop :=
  StronglySorted (λ a b, (b < a)%Q) cs.

(** ** A reference instance *)

(** A small runtime that meets the contracts and computes inside Rocq: it
    instantiates the theorems below on concrete requests. *)
Module Ref.

#[global] Instance Qle_dec (x y : Q) : Decision (x <= y)%Q :=
  match Qlt_le_dec y x with
  | left Hlt => right (Qlt_not_le _ _ Hlt)
  | right Hle => left Hle
  end.

Definition argsort (p : list Q) : list nat :=
  merge_sort (λ i j, (value_at p i <= value_at p j)%Q) (seq 0 (length p)).

(** A positive, increasing weight standing for [exp]. *)
Definition weight (x : Q) : Q :=
  if Qle_bool 0 x then (1 + x)%Q else (/ (1 - x))%Q.

Definition total (ws : list Q) : Q := fold_right Qplus 0%Q ws.

Definition softmax_row (row : list Q) : list Q :=
  let ws := map weight row in
  map (λ w, (w / total ws)%Q) ws.

Definition softmax (rows : list (list Q)) : list (list Q) :=
  map softmax_row rows.

Definition runtime : Runtime :=
  {| tf_nn_softmax := softmax; np_argsort := argsort |}.

(** Three features, four classes; the first feature carries no weight. *)
Definition logits_of (v : list Q) : list Q :=
  [(2 * value_at v 1)%Q; value_at v 1; (3 * value_at v 2)%Q; 0%Q].

Definition classifier : KerasModel :=
  {| predict := λ rows, Ok (map logits_of rows) |}.

Definition columns : list string := ["Fever"; " cough"; "headache"].
Definition labels : list string := ["flu"; "cold"; "migraine"; "healthy"].

Definition globals : Globals :=
  {| model := Some classifier;
     symptom_columns := Some columns;
     disease_labels := Some labels |}.

(** A world in which both artifacts are present... *)
Definition world : World :=
  {| environ := ∅;
     os_path_exists := λ _, true;
     load_model := λ _, Ok classifier;
     json_load := λ _,
       Ok (JObject [("symptom_columns", names columns);
                    ("disease_labels", names labels)]) |}.

(** ... and one from which the metadata file is missing. *)
Definition world_without_metadata : World :=
  {| environ := ∅;
     os_path_exists := λ path, String.eqb path "model10.keras";
     load_model := λ _, Ok classifier;
     json_load := λ _, Raise (LibraryError "unreachable") |}.

End Ref.

(** ** The computation the two endpoints share *)

(** Both endpoints run the same steps on one symptom list: vectorize,
    classify, softmax, rank, label.  [inference] is that sequence without
    the call log; [inference_calls] is what it adds to the log.  The
    endpoints above are written out as the source has them, and
    [predict_disease_run] and [batch_step_run] below relate them to it. *)

#[global] Instance result_ret : MRet result := @Ok.
#[global] Instance result_bind : MBind result := λ A B k r,
  match r with
  | Ok a => k a
  | Raise e => Raise e
  end.

(** The loop of [collect_top_3], without the log. *)
Fixpoint labelled (g : Globals) (probabilities : list Q) (idxs : list nat)
  : result (list Prediction.t) :=
  match idxs with
  | [] => Ok []
  | idx :: idxs' =>
      d ← list_getitem (disease_labels g) idx;
      c ← np_getitem probabilities idx;
      rest ← labelled g probabilities idxs';
      mret ({| Prediction.disease := d; Prediction.confidence := c |} :: rest)
  end.

Section Inference.
Context `{Runtime}.

Definition inference (g : Globals) (m : KerasModel) (symptoms : list string)
  : result PredictionResponse.t :=
  input_vector ← preprocess_symptoms g symptoms;
  logits ← predict m input_vector;
  probabilities ← np_getitem (tf_nn_softmax logits) 0;
  let top_3_indices := reversed (slice_last 3 (np_argsort probabilities)) in
  top_3_predictions ← labelled g probabilities top_3_indices;
  i0 ← np_getitem top_3_indices 0;
  predicted_disease ← list_getitem (disease_labels g) i0;
  confidence ← np_getitem probabilities i0;
  mret {| PredictionResponse.predicted_disease := predicted_disease;
          PredictionResponse.confidence := confidence;
          PredictionResponse.top_3_predictions := top_3_predictions |}.

Definition inference_calls (g : Globals) (symptoms : list string)
  : list Event :=
  CallPreprocess symptoms
    :: match preprocess_symptoms g symptoms with
       | Ok input_vector => [CallPredict input_vector]
       | Raise _ => []
       end.

(** A batch entry from a symptom list and its prediction. *)
Definition batch_item (symptoms : list string) (r : PredictionResponse.t)
  : BatchItem.t :=
  {| BatchItem.symptoms := symptoms;
     BatchItem.predicted_disease := PredictionResponse.predicted_disease r;
     BatchItem.confidence := PredictionResponse.confidence r;
     BatchItem.top_3_predictions := PredictionResponse.top_3_predictions r |}.

End Inference.

#[global] Instance result_fmap : FMap result := λ A B f r,
  match r with
  | Ok a => Ok (f a)
  | Raise e => Raise e
  end.

Section BatchLoop.
Context `{Runtime}.

(** The entries the batch loop accumulates: one per symptom list, in the
    order of the list; the first failing item raises. *)
Fixpoint batch_results (g : Globals) (m : KerasModel)
    (symptoms_list : list (list string)) : result (list BatchItem.t) :=
  match symptoms_list with
  | [] => Ok []
  | symptoms :: rest =>
      r ← inference g m symptoms;
      items ← batch_results g m rest;
      mret (batch_item symptoms r :: items)
  end.

(** The calls the batch loop logs: those of every item up to and
    including the first failing one. *)
Fixpoint batch_calls (g : Globals) (m : KerasModel)
    (symptoms_list : list (list string)) : list Event :=
  match symptoms_list with
  | [] => []
  | symptoms :: rest =>
      inference_calls g symptoms
        ++ match inference g m symptoms with
           | Ok _ => batch_calls g m rest
           | Raise _ => []
           end
  end.

End BatchLoop.

(** The indicator the vectorizer stores for one schema entry. *)
Definition indicator (normalized_symptoms : list string) (symptom_col : string)
  : Q :=
  if PyStr.contains normalized_symptoms (normalize symptom_col)
  then 1%Q else 0%Q.

(** ** Further instances *)

(** States and worlds that exercise the error paths. *)
Module Cases.

(** A classifier that fails on every row whose third feature is set. *)
Definition failing_classifier : KerasModel :=
  {| predict := λ rows,
       if existsb (λ row, negb (Qeq_bool (value_at row 2) 0)) rows
       then Raise (LibraryError "Graph execution error")
       else Ok (map Ref.logits_of rows) |}.

Definition failing_globals : Globals :=
  {| model := Some failing_classifier;
     symptom_columns := Some Ref.columns;
     disease_labels := Some Ref.labels |}.

(** The model and the schema are loaded, the list of labels is empty. *)
Definition unlabelled_globals : Globals :=
  {| model := Some Ref.classifier;
     symptom_columns := Some Ref.columns;
     disease_labels := Some [] |}.

(** Both files are present, the metadata lacks [disease_labels]. *)
Definition world_without_labels : World :=
  {| environ := ∅;
     os_path_exists := λ _, true;
     load_model := λ _, Ok Ref.classifier;
     json_load := λ _,
       Ok (JObject [("symptom_columns", names Ref.columns)]) |}.

(** Both files are present, the metadata holds a count where the list of
    symptoms should be. *)
Definition world_with_count : World :=
  {| environ := ∅;
     os_path_exists := λ _, true;
     load_model := λ _, Ok Ref.classifier;
     json_load := λ _,
       Ok (JObject [("symptom_columns", JInt 5);
                    ("disease_labels", names Ref.labels)]) |}.

End Cases.

(** Everything startup needs is in place: both files exist, the model
    loads as [m], and the metadata parses and holds both lists. *)
Definition Artifacts (w : World) (m : KerasModel)
    (columns labels : list string) : Prop :=
  os_path_exists w (MODEL_PATH w) = true
  ∧ load_model w (MODEL_PATH w) = Ok m
  ∧ os_path_exists w (METADATA_PATH w) = true
  ∧ ∃ metadata,
      json_load w (METADATA_PATH w) = Ok (JObject metadata)
      ∧ dict_get metadata "symptom_columns" = Some (names columns)
      ∧ dict_get metadata "disease_labels" = Some (names labels).

(** The globals after a startup that loaded [m], [columns] and [labels]. *)
Definition loaded (m : KerasModel) (columns labels : list string) : Globals :=
  {| model := Some m;
     symptom_columns := Some columns;
     disease_labels := Some labels |}.

(** * Properties *)

(** ** The vectorizer *)

Lemma contains_spec (xs : list string) (x : string) :
  PyStr.contains xs x = true ↔ x ∈ xs.
Proof.
  unfold PyStr.contains. rewrite existsb_exists. split.
  - intros (y & Hy & Heq). apply String.eqb_eq in Heq. subst y.
    by apply list_elem_of_In.
  - intros Hin. exists x. split; [by apply list_elem_of_In|].
    apply String.eqb_refl.
Qed.

(** The loop over [enumerate(symptom_columns)], started after a prefix
    already filled in, writes the indicator of each remaining entry. *)
Lemma vectorize_loop (ns : list string) (cols : list string) :
  ∀ done_ : list Q,
    fold_left
      (λ vec '(idx, symptom_col),
         if PyStr.contains ns (normalize symptom_col)
         then <[idx := 1%Q]> vec else vec)
      (zip (seq (length done_) (length cols)) cols)
      (done_ ++ replicate (length cols) 0%Q)
    = done_ ++ map (indicator ns) cols.
Proof.
  induction cols as [|c cs IH]; intros done_; simpl.
  - reflexivity.
  - assert (Hstep :
      (if PyStr.contains ns (normalize c)
       then <[length done_ := 1%Q]> (done_ ++ 0%Q :: replicate (length cs) 0%Q)
       else done_ ++ 0%Q :: replicate (length cs) 0%Q)
      = (done_ ++ [indicator ns c]) ++ replicate (length cs) 0%Q).
    { unfold indicator. destruct (PyStr.contains ns (normalize c)).
      - rewrite insert_app_r_alt by lia. rewrite Nat.sub_diag. simpl.
        by rewrite <- app_assoc.
      - by rewrite <- app_assoc. }
    rewrite Hstep.
    replace (S (length done_)) with (length (done_ ++ [indicator ns c]))
      by (rewrite length_app; simpl; lia).
    rewrite IH. by rewrite <- app_assoc.
Qed.

(** The vectorizer in closed form. *)
Lemma preprocess_symptoms_eq (g : Globals) (columns symptoms : list string) :
  symptom_columns g = Some columns →
  preprocess_symptoms g symptoms
  = Ok [map (indicator (map normalize symptoms)) columns].
Proof.
  intros Hcols. unfold preprocess_symptoms, reshape_1, np_zeros, enumerate.
  rewrite Hcols. f_equal. f_equal.
  apply (vectorize_loop (map normalize symptoms) columns []).
Qed.

Lemma preprocess_symptoms_unloaded (g : Globals) (symptoms : list string) :
  symptom_columns g = None →
  preprocess_symptoms g symptoms
  = Raise (TypeError "object of type 'NoneType' has no len()").
Proof. intros Hcols. unfold preprocess_symptoms. by rewrite Hcols. Qed.

(** The vector depends on the symptoms only through their normal forms. *)
Lemma preprocess_symptoms_normalized (g : Globals) (xs ys : list string) :
  map normalize xs = map normalize ys →
  preprocess_symptoms g xs = preprocess_symptoms g ys.
Proof. intros Heq. unfold preprocess_symptoms. by rewrite Heq. Qed.

Lemma indicator_one (ns : list string) (col : string) :
  normalize col ∈ ns → indicator ns col = 1%Q.
Proof.
  intros Hin. unfold indicator.
  by rewrite (proj2 (contains_spec ns (normalize col)) Hin).
Qed.

Lemma indicator_zero (ns : list string) (col : string) :
  normalize col ∉ ns → indicator ns col = 0%Q.
Proof.
  intros Hnin. unfold indicator.
  destruct (PyStr.contains ns (normalize col)) eqn:Hc; [|done].
  apply contains_spec in Hc. contradiction.
Qed.

Lemma elem_of_normalized (symptoms : list string) (x : string) :
  x ∈ map normalize symptoms ↔ ∃ s, s ∈ symptoms ∧ normalize s = x.
Proof.
  rewrite list_elem_of_In, in_map_iff. split.
  - intros (s & Hs & Hin). exists s. by rewrite list_elem_of_In.
  - intros (s & Hin & Hs). exists s. by rewrite <- list_elem_of_In.
Qed.

(** Appending strings whose normal form is no schema entry's leaves every
    indicator as it was. *)
Lemma indicator_app_unrecognized (symptoms extra : list string) (col : string) :
  (∀ e, e ∈ extra → normalize e ≠ normalize col) →
  indicator (map normalize (symptoms ++ extra)) col
  = indicator (map normalize symptoms) col.
Proof.
  intros Hextra. unfold indicator.
  destruct (PyStr.contains (map normalize symptoms) (normalize col)) eqn:Hc.
  - apply contains_spec, elem_of_normalized in Hc as (s & Hs & Heq).
    assert (Hin : normalize col ∈ map normalize (symptoms ++ extra)).
    { apply elem_of_normalized. exists s. split; [|done].
      apply elem_of_app. by left. }
    by rewrite (proj2 (contains_spec _ _) Hin).
  - destruct (PyStr.contains (map normalize (symptoms ++ extra))
                (normalize col)) eqn:Hc'; [|done].
    apply contains_spec, elem_of_normalized in Hc' as (s & Hs & Heq).
    apply elem_of_app in Hs as [Hs|Hs].
    + assert (Hin : normalize col ∈ map normalize symptoms).
      { apply elem_of_normalized. by exists s. }
      apply contains_spec in Hin. congruence.
    + by destruct (Hextra s Hs).
Qed.

(** ** The endpoints and the shared computation *)

Section Endpoints.
Context `{Runtime}.

Lemma collect_loop_run (g : Globals) (p : list Q) (idxs : list nat) :
  ∀ (acc : list Prediction.t) (log : list Event),
    for_each
      (λ top_3_predictions idx,
         d ← lift (list_getitem (disease_labels g) idx);
         c ← lift (np_getitem p idx);
         mret (top_3_predictions
                 ++ [{| Prediction.disease := d;
                        Prediction.confidence := c |}]))
      acc idxs log
    = (match labelled g p idxs with
       | Ok l => Ok (acc ++ l)
       | Raise e => Raise e
       end, log).
Proof.
  induction idxs as [|idx idxs IH]; intros acc log; simpl.
  - unfold ret. by rewrite app_nil_r.
  - unfold mbind, M_bind, result_bind, bind, lift, mret, M_ret, ret in *.
    destruct (list_getitem (disease_labels g) idx) as [d|e]; [|done].
    destruct (np_getitem p idx) as [c|e]; [|done].
    rewrite IH. destruct (labelled g p idxs) as [l|e]; [|done].
    simpl. by rewrite <- app_assoc.
Qed.

Lemma collect_top_3_run (g : Globals) (p : list Q) (idxs : list nat)
    (log : list Event) :
  collect_top_3 g p idxs log = (labelled g p idxs, log).
Proof.
  unfold collect_top_3. rewrite collect_loop_run.
  by destruct (labelled g p idxs).
Qed.

(** One turn of the batch loop is the shared computation, with its calls
    logged and its result appended. *)
Lemma batch_step_run (g : Globals) (m : KerasModel)
    (results : list BatchItem.t) (symptoms : list string) (log : list Event) :
  batch_step g m results symptoms log
  = (match inference g m symptoms with
     | Ok r => Ok (results ++ [batch_item symptoms r])
     | Raise e => Raise e
     end, log ++ inference_calls g symptoms).
Proof.
  unfold batch_step, inference, inference_calls.
  unfold mbind, M_bind, result_bind, bind, tell, lift, mret, M_ret,
    result_ret, ret.
  destruct (preprocess_symptoms g symptoms) as [v|e]; [|done].
  rewrite <- app_assoc. simpl.
  destruct (predict m v) as [logits|e]; [|done].
  destruct (np_getitem (tf_nn_softmax logits) 0) as [p|e]; [|done].
  rewrite collect_top_3_run.
  destruct (labelled g p _) as [preds|e]; [|done].
  destruct (np_getitem (reversed _) 0) as [i0|e]; [|done].
  destruct (list_getitem (disease_labels g) i0) as [d|e]; [|done].
  by destruct (np_getitem p i0) as [c|e].
Qed.

(** [/predict] on a non-empty list is the shared computation, with its
    calls logged and its exceptions reported as a 500. *)
Lemma predict_disease_run (g : Globals) (m : KerasModel)
    (symptoms : list string) (log : list Event) :
  model g = Some m → symptoms ≠ [] →
  predict_disease g symptoms log
  = (match inference g m symptoms with
     | Ok r => Ok r
     | Raise e => Raise (HTTPException 500 ("Prediction error: " ++ str e))
     end, log ++ inference_calls g symptoms).
Proof.
  intros Hm Hne. unfold predict_disease. rewrite Hm.
  destruct symptoms as [|s ss]; [done|].
  unfold inference, inference_calls, try_except, raise.
  unfold mbind, M_bind, result_bind, bind, tell, lift, mret, M_ret,
    result_ret, ret.
  destruct (preprocess_symptoms g (s :: ss)) as [v|e]; [|done].
  rewrite <- app_assoc. simpl.
  destruct (predict m v) as [logits|e]; [|done].
  destruct (np_getitem (tf_nn_softmax logits) 0) as [p|e]; [|done].
  rewrite collect_top_3_run.
  destruct (labelled g p _) as [preds|e]; [|done].
  destruct (np_getitem (reversed _) 0) as [i0|e]; [|done].
  destruct (list_getitem (disease_labels g) i0) as [d|e]; [|done].
  by destruct (np_getitem p i0) as [c|e].
Qed.

End Endpoints.

(** ** Ranking *)

Lemma np_getitem_Ok {A} (a : list A) (i : nat) (x : A) :
  np_getitem a i = Ok x ↔ a !! i = Some x.
Proof.
  unfold np_getitem. destruct (a !! i); split; intros Heq; congruence.
Qed.

Lemma list_getitem_Ok {A} (l : list A) (i : nat) (x : A) :
  list_getitem (Some l) i = Ok x ↔ l !! i = Some x.
Proof.
  unfold list_getitem. destruct (l !! i); split; intros Heq; congruence.
Qed.

Lemma value_at_lookup (p : list Q) (i : nat) (x : Q) :
  p !! i = Some x → value_at p i = x.
Proof. intros Hl. unfold value_at. by rewrite Hl. Qed.

Lemma StronglySorted_drop {A} (R : relation A) (l : list A) (k : nat) :
  StronglySorted R l → StronglySorted R (drop k l).
Proof.
  intros Hs. rewrite <- (take_drop k l) in Hs.
  by apply StronglySorted_app_1_r in Hs.
Qed.

Lemma StronglySorted_reverse {A} (R : relation A) (l : list A) :
  StronglySorted R l → StronglySorted (flip R) (reverse l).
Proof.
  induction 1 as [|x l Hs IH Hx].
  - constructor.
  - rewrite reverse_cons. apply StronglySorted_app_2.
    + intros a b Ha Hb. rewrite elem_of_reverse in Ha.
      apply list_elem_of_singleton in Hb. subst b.
      rewrite Forall_forall in Hx. unfold flip. by apply Hx.
    + exact IH.
    + repeat constructor.
Qed.

(** Each prediction built by the labelling loop pairs the label and the
    probability found at one of the ranked indices. *)
Lemma labelled_inv (g : Globals) (p : list Q) (idxs : list nat) :
  ∀ preds, labelled g p idxs = Ok preds →
    Forall2
      (λ i pr, list_getitem (disease_labels g) i = Ok (Prediction.disease pr)
               ∧ p !! i = Some (Prediction.confidence pr))
      idxs preds.
Proof.
  induction idxs as [|i idxs IH]; intros preds Hl; simpl in Hl.
  - injection Hl as <-. constructor.
  - unfold mbind, result_bind, mret, result_ret in Hl.
    destruct (list_getitem (disease_labels g) i) as [d|e] eqn:Hd; [|done].
    destruct (np_getitem p i) as [c|e] eqn:Hc; [|done].
    destruct (labelled g p idxs) as [rest|e]; [|done].
    injection Hl as <-. constructor.
    + split; [done|]. by apply np_getitem_Ok.
    + by apply IH.
Qed.

Lemma labelled_total (g : Globals) (labels : list string) (p : list Q)
    (idxs : list nat) :
  disease_labels g = Some labels →
  (∀ i, i ∈ idxs → i < length labels ∧ i < length p) →
  ∃ preds, labelled g p idxs = Ok preds.
Proof.
  intros Hlabels. induction idxs as [|i idxs IH]; intros Hb; simpl.
  - by eexists.
  - destruct (Hb i) as [Hi1 Hi2]; [by left|].
    destruct (lookup_lt_is_Some_2 labels i Hi1) as [d Hd].
    destruct (lookup_lt_is_Some_2 p i Hi2) as [c Hc].
    destruct IH as [rest Hrest]; [intros j Hj; apply Hb; by right|].
    rewrite Hlabels. unfold mbind, result_bind, mret, result_ret.
    rewrite (proj2 (list_getitem_Ok labels i d) Hd).
    rewrite (proj2 (np_getitem_Ok p i c) Hc). rewrite Hrest. by eexists.
Qed.

Lemma labelled_length (g : Globals) (p : list Q) (idxs : list nat)
    (preds : list Prediction.t) :
  labelled g p idxs = Ok preds → length preds = length idxs.
Proof.
  intros Hl. apply labelled_inv in Hl. symmetry. by eapply Forall2_length.
Qed.

(** Probabilities read off at indices whose values descend are themselves
    in descending order. *)
Lemma confidences_descending (p : list Q) (idxs : list nat) :
  ∀ preds : list Prediction.t,
    Forall2 (λ i pr, p !! i = Some (Prediction.confidence pr)) idxs preds →
    StronglySorted (λ i j, (value_at p j <= value_at p i)%Q) idxs →
    descending (map Prediction.confidence preds).
Proof.
  unfold descending.
  induction idxs as [|i idxs IH]; intros preds Hf Hs.
  - inversion Hf; subst. constructor.
  - inversion Hf as [|? pr ? rest Hi Hrest]; subst.
    apply StronglySorted_cons in Hs as [Hall Hs]. simpl. constructor.
    + by apply IH.
    + clear IH Hf Hs. induction Hrest as [|j pr' idxs' rest' Hj Hrest' IH'].
      * constructor.
      * inversion Hall as [|? ? Hij Hall']; subst. simpl. constructor.
        -- rewrite <- (value_at_lookup p j _ Hj).
           by rewrite <- (value_at_lookup p i _ Hi).
        -- by apply IH'.
Qed.

Section Ranking.
Context `{RuntimeContract}.

Lemma argsort_length (p : list Q) : length (np_argsort p) = length p.
Proof. by rewrite (Permutation_length (argsort_permutation p)), length_seq. Qed.

Lemma top_indices_length (p : list Q) :
  length (reversed (slice_last 3 (np_argsort p))) = 3 `min` length p.
Proof.
  unfold reversed, slice_last.
  rewrite length_reverse, length_drop, argsort_length. lia.
Qed.

Lemma top_indices_bound (p : list Q) (i : nat) :
  i ∈ reversed (slice_last 3 (np_argsort p)) → i < length p.
Proof.
  unfold reversed, slice_last. intros Hi.
  rewrite elem_of_reverse in Hi. apply subseteq_drop in Hi.
  rewrite (argsort_permutation p) in Hi. apply elem_of_seq in Hi. lia.
Qed.

Lemma top_indices_descending (p : list Q) :
  StronglySorted (λ i j, (value_at p j <= value_at p i)%Q)
    (reversed (slice_last 3 (np_argsort p))).
Proof.
  unfold reversed, slice_last.
  apply (StronglySorted_reverse
           (λ i j, (value_at p i <= value_at p j)%Q)).
  apply StronglySorted_drop, argsort_ascending.
Qed.

End Ranking.

(** ** The shared computation, step by step *)

Section InferenceFacts.
Context `{Runtime}.

(** What a successful run went through. *)
Lemma inference_inv (g : Globals) (m : KerasModel) (symptoms : list string)
    (r : PredictionResponse.t) :
  inference g m symptoms = Ok r →
  ∃ v logits p i0,
    preprocess_symptoms g symptoms = Ok v
    ∧ predict m v = Ok logits
    ∧ tf_nn_softmax logits !! 0 = Some p
    ∧ labelled g p (reversed (slice_last 3 (np_argsort p)))
      = Ok (PredictionResponse.top_3_predictions r)
    ∧ reversed (slice_last 3 (np_argsort p)) !! 0 = Some i0
    ∧ list_getitem (disease_labels g) i0
      = Ok (PredictionResponse.predicted_disease r)
    ∧ p !! i0 = Some (PredictionResponse.confidence r).
Proof.
  unfold inference, mbind, result_bind, mret, result_ret. intros Hr.
  destruct (preprocess_symptoms g symptoms) as [v|e] eqn:Hv; [|done].
  destruct (predict m v) as [logits|e] eqn:Hlogits; [|done].
  destruct (np_getitem (tf_nn_softmax logits) 0) as [p|e] eqn:Hp; [|done].
  destruct (labelled g p _) as [preds|e] eqn:Hpreds; [|done].
  destruct (np_getitem (reversed _) 0) as [i0|e] eqn:Hi0; [|done].
  destruct (list_getitem (disease_labels g) i0) as [d|e] eqn:Hd; [|done].
  destruct (np_getitem p i0) as [c|e] eqn:Hc; [|done].
  injection Hr as <-. simpl.
  exists v, logits, p, i0.
  apply np_getitem_Ok in Hp, Hi0, Hc. by repeat split.
Qed.

Context `{!RuntimeContract}.

(** With a loaded schema and a classifier of matching shape, the
    probabilities have one entry per disease label, each in [0,1]. *)
Lemma probabilities_ok (g : Globals) (m : KerasModel)
    (columns labels symptoms : list string) :
  symptom_columns g = Some columns →
  Classifier (length columns) (length labels) m →
  ∃ vec logits p,
    preprocess_symptoms g symptoms = Ok [vec]
    ∧ vec = map (indicator (map normalize symptoms)) columns
    ∧ predict m [vec] = Ok [logits]
    ∧ tf_nn_softmax [logits] = [p]
    ∧ length p = length labels
    ∧ Forall in_unit_interval p.
Proof.
  intros Hcols Hm.
  pose (vec := map (indicator (map normalize symptoms)) columns).
  destruct (Hm [vec]) as (out & Hout & Hshape).
  { constructor; [|constructor]. unfold vec. by rewrite length_map. }
  inversion Hshape as [|? logits ? rest Hlen Hrest]; subst.
  inversion Hrest; subst.
  pose proof (softmax_shape [logits]) as Hsm.
  pose proof (softmax_range [logits]) as Hrg.
  inversion Hsm as [|? p ? rest' Hlenp Hrest' Heq1 Heq2]; subst.
  inversion Hrest'; subst.
  rewrite <- Heq2 in Hrg. inversion Hrg as [|? ? Hp _]; subst.
  exists vec, logits, p. repeat split; try done.
  - by apply preprocess_symptoms_eq.
  - by rewrite Hlenp.
Qed.

(** So the shared computation succeeds as soon as there is a label. *)
Lemma inference_total (g : Globals) (m : KerasModel)
    (columns labels symptoms : list string) :
  symptom_columns g = Some columns →
  disease_labels g = Some labels →
  labels ≠ [] →
  Classifier (length columns) (length labels) m →
  ∃ r, inference g m symptoms = Ok r.
Proof.
  intros Hcols Hlabels Hne Hm.
  destruct (probabilities_ok g m columns labels symptoms Hcols Hm)
    as (vec & logits & p & Hv & _ & Hlogits & Hp & Hlen & _).
  unfold inference, mbind, result_bind, mret, result_ret.
  rewrite Hv, Hlogits, Hp. simpl.
  destruct (labelled_total g labels p
              (reversed (slice_last 3 (np_argsort p))) Hlabels)
    as [preds Hpreds].
  { intros i Hi. apply top_indices_bound in Hi. lia. }
  rewrite Hpreds.
  assert (Hpos : 0 < length (reversed (slice_last 3 (np_argsort p)))).
  { rewrite top_indices_length, Hlen. destruct labels; [done|simpl; lia]. }
  destruct (lookup_lt_is_Some_2 _ 0 Hpos) as [i0 Hi0].
  rewrite (proj2 (np_getitem_Ok _ 0 i0) Hi0).
  assert (Hb : i0 < length p).
  { apply top_indices_bound. by eapply list_elem_of_lookup_2. }
  destruct (lookup_lt_is_Some_2 labels i0) as [d Hd]; [lia|].
  destruct (lookup_lt_is_Some_2 p i0 Hb) as [c Hc].
  rewrite Hlabels, (proj2 (list_getitem_Ok labels i0 d) Hd).
  rewrite (proj2 (np_getitem_Ok p i0 c) Hc). by eexists.
Qed.

End InferenceFacts.

(** ** The reference instance meets the contracts *)

Lemma ref_weight_pos (x : Q) : (0 < Ref.weight x)%Q.
Proof.
  unfold Ref.weight. destruct (Qle_bool 0 x) eqn:Hx.
  - apply Qle_bool_iff in Hx. lra.
  - apply Qinv_lt_0_compat.
    assert (Hn : ¬ (0 <= x)%Q).
    { intros Hle. apply Qle_bool_iff in Hle. congruence. }
    apply Qnot_le_lt in Hn. lra.
Qed.

Lemma ref_total_bound (ws : list Q) :
  Forall (λ w, (0 < w)%Q) ws →
  (0 <= Ref.total ws)%Q ∧ Forall (λ w, (w <= Ref.total ws)%Q) ws.
Proof.
  induction 1 as [|w ws Hw Hws [IH0 IH]]; simpl.
  - split; [lra|constructor].
  - split; [lra|]. constructor; [lra|].
    eapply Forall_impl; [exact IH|]. simpl. intros y Hy. lra.
Qed.

Lemma ref_softmax_row_range (row : list Q) :
  Forall in_unit_interval (Ref.softmax_row row).
Proof.
  unfold Ref.softmax_row.
  assert (Hpos : Forall (λ w, (0 < w)%Q) (map Ref.weight row)).
  { induction row; constructor; [apply ref_weight_pos|done]. }
  destruct (ref_total_bound _ Hpos) as [_ Hle].
  remember (Ref.total (map Ref.weight row)) as t eqn:Ht. clear Ht.
  induction Hpos as [|w ws Hw Hws IH]; simpl; [constructor|].
  inversion Hle as [|? ? Hwt Hle']; subst. constructor; [|by apply IH].
  assert (Ht : (0 < t)%Q) by lra. split.
  - apply Qle_shift_div_l; [done|]. lra.
  - apply Qle_shift_div_r; [done|]. lra.
Qed.

Lemma ref_runtime_contract : @RuntimeContract Ref.runtime.
Proof.
  split; simpl.
  - intros p. apply merge_sort_Permutation.
  - intros p. apply StronglySorted_merge_sort.
    + intros i j k Hij Hjk. by eapply Qle_trans.
    + intros i j.
      destruct (Qlt_le_dec (value_at p j) (value_at p i)) as [Hlt|Hle].
      * right. by apply Qlt_le_weak.
      * by left.
  - intros rows. unfold Ref.softmax.
    induction rows as [|row rows IH]; simpl; constructor; [|exact IH].
    unfold Ref.softmax_row. by rewrite !length_map.
  - intros rows. unfold Ref.softmax.
    induction rows as [|row rows IH]; simpl; constructor; [|exact IH].
    apply ref_softmax_row_range.
Qed.

Lemma ref_classifier : Classifier 3 4 Ref.classifier.
Proof.
  intros rows _. exists (map Ref.logits_of rows). split; [done|].
  induction rows; simpl; by constructor.
Qed.

(** ** The batch loop in closed form *)

Section BatchFacts.
Context `{Runtime}.

Lemma batch_loop_run (g : Globals) (m : KerasModel)
    (symptoms_list : list (list string)) :
  ∀ (acc : list BatchItem.t) (log : list Event),
    for_each (batch_step g m) acc symptoms_list log
    = (match batch_results g m symptoms_list with
       | Ok items => Ok (acc ++ items)
       | Raise e => Raise e
       end, log ++ batch_calls g m symptoms_list).
Proof.
  induction symptoms_list as [|symptoms rest IH]; intros acc log; simpl.
  - unfold ret. by rewrite !app_nil_r.
  - unfold mbind at 1, M_bind, bind. rewrite batch_step_run.
    unfold mbind, result_bind, mret, result_ret.
    destruct (inference g m symptoms) as [r|e].
    + rewrite IH.
      destruct (batch_results g m rest); simpl; by rewrite <- !app_assoc.
    + by rewrite app_nil_r.
Qed.

Lemma predict_disease_batch_run (g : Globals) (m : KerasModel)
    (symptoms_list : list (list string)) (log : list Event) :
  model g = Some m →
  predict_disease_batch g symptoms_list log
  = (match batch_results g m symptoms_list with
     | Ok items => Ok items
     | Raise e =>
         Raise (HTTPException 500 ("Batch prediction error: " ++ str e))
     end, log ++ batch_calls g m symptoms_list).
Proof.
  intros Hm. unfold predict_disease_batch, try_except, raise.
  rewrite Hm, batch_loop_run.
  by destruct (batch_results g m symptoms_list).
Qed.

(** The entries of a successful batch, position by position. *)
Lemma batch_results_inv (g : Globals) (m : KerasModel)
    (symptoms_list : list (list string)) :
  ∀ items, batch_results g m symptoms_list = Ok items →
    Forall2
      (λ symptoms item,
         ∃ r, inference g m symptoms = Ok r ∧ item = batch_item symptoms r)
      symptoms_list items.
Proof.
  induction symptoms_list as [|symptoms rest IH]; intros items Hb;
    simpl in Hb.
  - injection Hb as <-. constructor.
  - unfold mbind, result_bind, mret, result_ret in Hb.
    destruct (inference g m symptoms) as [r|e] eqn:Hr; [|done].
    destruct (batch_results g m rest) as [items'|e]; [|done].
    injection Hb as <-. constructor; [by exists r|by apply IH].
Qed.

Lemma batch_results_total (g : Globals) (m : KerasModel)
    (symptoms_list : list (list string)) :
  (∀ symptoms, symptoms ∈ symptoms_list →
               ∃ r, inference g m symptoms = Ok r) →
  ∃ items, batch_results g m symptoms_list = Ok items.
Proof.
  induction symptoms_list as [|symptoms rest IH]; intros Hall; simpl.
  - by eexists.
  - destruct (Hall symptoms) as [r Hr]; [by left|].
    destruct IH as [items Hitems]; [intros s Hs; apply Hall; by right|].
    unfold mbind, result_bind, mret, result_ret.
    rewrite Hr, Hitems. by eexists.
Qed.

(** The shared computation sees the symptoms only through the vector. *)
Lemma inference_same_vector (g : Globals) (m : KerasModel)
    (xs ys : list string) :
  preprocess_symptoms g xs = preprocess_symptoms g ys →
  inference g m xs = inference g m ys.
Proof. intros Heq. unfold inference. by rewrite Heq. Qed.

End BatchFacts.

(** * The claims *)

(** ** Vectorizer *)

(** C1. With a schema of N entries loaded, the vectorizer returns, for any
    list of input strings, one row of length N whose entry at position [i]
    is 1 when the lowercased, trimmed schema entry at [i] equals the
    lowercased, trimmed form of some input string, and 0 otherwise. *)
Theorem preprocess_symptoms_indicator_vector
    (g : Globals) (columns symptoms : list string) :
  symptom_columns g = Some columns →
  ∃ v : list Q,
    preprocess_symptoms g symptoms = Ok [v]
    ∧ length v = length columns
    ∧ ∀ i col, columns !! i = Some col →
        ((∃ s, s ∈ symptoms ∧ normalize s = normalize col) →
         v !! i = Some 1%Q)
        ∧ ((¬ ∃ s, s ∈ symptoms ∧ normalize s = normalize col) →
           v !! i = Some 0%Q).
Proof.
  intros Hcols.
  exists (map (indicator (map normalize symptoms)) columns).
  split; [by apply preprocess_symptoms_eq|].
  split; [by rewrite length_map|].
  intros i col Hi.
  assert (Hv : map (indicator (map normalize symptoms)) columns !! i
               = Some (indicator (map normalize symptoms) col)).
  { change (map ?f ?l) with (f <$> l). by rewrite list_lookup_fmap, Hi. }
  rewrite Hv. split.
  - intros Hmatch. f_equal. apply indicator_one.
    by apply elem_of_normalized.
  - intros Hnone. f_equal. apply indicator_zero.
    intros Hin. apply Hnone. by apply elem_of_normalized.
Qed.

(** C6. Matching ignores letter case and surrounding whitespace: whatever
    the schema, ["FEVER"], [" fever "] and ["fever"] give the same
    feature vector. *)
Theorem matching_ignores_case_and_whitespace (g : Globals) :
  preprocess_symptoms g ["FEVER"] = preprocess_symptoms g ["fever"]
  ∧ preprocess_symptoms g [" fever "] = preprocess_symptoms g ["fever"].
Proof. split; by apply preprocess_symptoms_normalized. Qed.

Lemma batch_item_prediction (symptoms : list string) (r : PredictionResponse.t) :
  BatchItem.prediction (batch_item symptoms r) = r.
Proof. by destruct r. Qed.

Section Claims.
Context `{Runtime}.

(** C7. Strings that match no schema entry once normalized change
    nothing: with them appended, the vectorizer returns the same vector
    as without them, and raises nothing; so [/predict] answers a
    non-empty list the same with or without them, and so does the batch
    endpoint for any list. *)
Theorem unrecognized_symptoms_ignored
    (g : Globals) (columns symptoms extra : list string) :
  symptom_columns g = Some columns →
  (∀ e col, e ∈ extra → col ∈ columns → normalize e ≠ normalize col) →
  (∃ v, preprocess_symptoms g (symptoms ++ extra) = Ok v
        ∧ preprocess_symptoms g symptoms = Ok v)
  ∧ (symptoms ≠ [] →
     (run (predict_disease g (symptoms ++ extra))).1
     = (run (predict_disease g symptoms)).1)
  ∧ (map BatchItem.prediction
       <$> (run (predict_disease_batch g [symptoms ++ extra])).1)
    = (map BatchItem.prediction
         <$> (run (predict_disease_batch g [symptoms])).1).
Proof.
  intros Hcols Hextra.
  assert (Hvec : preprocess_symptoms g (symptoms ++ extra)
                 = preprocess_symptoms g symptoms).
  { rewrite !(preprocess_symptoms_eq g columns) by done.
    f_equal. f_equal. apply map_ext_in. intros col Hcol.
    apply indicator_app_unrecognized. intros e He.
    apply Hextra; [done|]. by apply list_elem_of_In. }
  split; [|split].
  - exists [map (indicator (map normalize symptoms)) columns].
    rewrite Hvec. split; by apply preprocess_symptoms_eq.
  - intros Hne. unfold run. destruct (model g) as [m|] eqn:Hm.
    + rewrite !(predict_disease_run g m) by (try done; by destruct symptoms).
      simpl. by rewrite (inference_same_vector g m _ _ Hvec).
    + unfold predict_disease. by rewrite Hm.
  - unfold run. destruct (model g) as [m|] eqn:Hm.
    + rewrite !(predict_disease_batch_run g m) by done. simpl.
      rewrite (inference_same_vector g m _ _ Hvec).
      unfold mbind, result_bind, mret, result_ret.
      destruct (inference g m symptoms) as [r|e]; [|done].
      simpl. by rewrite !batch_item_prediction.
    + unfold predict_disease_batch. by rewrite Hm.
Qed.

(** C4. With the model loaded, [/predict] answers an empty symptom list
    with HTTP 400 and leaves the call log as it found it: neither the
    vectorizer nor the classifier has been called. *)
Theorem empty_symptoms_rejected
    (w : World) (g : Globals) (m : KerasModel) (log : list Event) :
  model g = Some m →
  predict_disease g [] log
  = (Raise (HTTPException 400 "No symptoms provided"), log)
  ∧ run (predict_disease g [])
    = (Raise (HTTPException 400 "No symptoms provided"), [])
  ∧ respond w g (POST_predict []) = ErrorResponse 400 "No symptoms provided".
Proof.
  intros Hm. unfold respond, run, dispatch, predict_disease.
  unfold mbind, M_bind, bind. by rewrite Hm.
Qed.

(** C3. In every successful [/predict] response the top-level
    [predicted_disease] and [confidence] are those of the first entry of
    [top_3_predictions]. *)
Theorem top_prediction_is_first
    (g : Globals) (symptoms : list string) (log log' : list Event)
    (r : PredictionResponse.t) :
  predict_disease g symptoms log = (Ok r, log') →
  ∃ first,
    PredictionResponse.top_3_predictions r !! 0 = Some first
    ∧ PredictionResponse.predicted_disease r = Prediction.disease first
    ∧ PredictionResponse.confidence r = Prediction.confidence first.
Proof.
  intros Hrun.
  destruct (model g) as [m|] eqn:Hm;
    [|unfold predict_disease in Hrun; by rewrite Hm in Hrun].
  destruct symptoms as [|s ss];
    [unfold predict_disease in Hrun; by rewrite Hm in Hrun|].
  rewrite (predict_disease_run g m) in Hrun by done.
  destruct (inference g m (s :: ss)) as [r'|e] eqn:Hinf; [|done].
  injection Hrun as -> _.
  apply inference_inv in Hinf
    as (v & logits & p & i0 & _ & _ & _ & Hpreds & Hi0 & Hd & Hc).
  apply labelled_inv in Hpreds.
  destruct (Forall2_lookup_l _ _ _ 0 i0 Hpreds Hi0)
    as (first & Hfirst & Hd' & Hc').
  exists first. split; [done|]. split; congruence.
Qed.

End Claims.

Lemma indicator_nil (col : string) : indicator [] col = 0%Q.
Proof. reflexivity. Qed.

Lemma preprocess_symptoms_nil (g : Globals) (columns : list string) :
  symptom_columns g = Some columns →
  preprocess_symptoms g [] = Ok [np_zeros (length columns)].
Proof.
  intros Hcols. rewrite (preprocess_symptoms_eq g columns) by done.
  f_equal. f_equal. unfold np_zeros. simpl. clear Hcols.
  induction columns as [|c cs IH]; simpl; [done|]. by rewrite IH.
Qed.

Section BatchAndStartup.
Context `{Runtime}.

(** C5 (amended). When the batch endpoint succeeds on [k] symptom lists
    it returns [k] entries in the order of the input, the entry at
    position [i] echoing the list at position [i] and carrying, as
    [predicted_disease], [confidence] and [top_3_predictions], what the
    computation shared with [/predict] (vectorize, classify, softmax,
    rank) yields on that list.  For a list that is not empty this is what
    [/predict] returns on it; for an empty list it is the prediction
    computed from the all-zero vector, where [/predict] answers 400. *)
Theorem batch_matches_single
    (g : Globals) (symptoms_list : list (list string))
    (results : list BatchItem.t) (log : list Event) :
  run (predict_disease_batch g symptoms_list) = (Ok results, log) →
  length results = length symptoms_list
  ∧ ∃ m,
      model g = Some m
      ∧ ∀ i symptoms, symptoms_list !! i = Some symptoms →
          ∃ item,
            results !! i = Some item
            ∧ BatchItem.symptoms item = symptoms
            ∧ inference g m symptoms = Ok (BatchItem.prediction item)
            ∧ (symptoms ≠ [] →
               (run (predict_disease g symptoms)).1
               = Ok (BatchItem.prediction item))
            ∧ (symptoms = [] →
               (run (predict_disease g symptoms)).1
               = Raise (HTTPException 400 "No symptoms provided")
               ∧ ∃ columns,
                   symptom_columns g = Some columns
                   ∧ preprocess_symptoms g symptoms
                     = Ok [np_zeros (length columns)]).
Proof.
  unfold run. intros Hrun.
  destruct (model g) as [m|] eqn:Hm;
    [|unfold predict_disease_batch in Hrun; by rewrite Hm in Hrun].
  rewrite (predict_disease_batch_run g m) in Hrun by done.
  destruct (batch_results g m symptoms_list) as [items|e] eqn:Hb; [|done].
  injection Hrun as -> _.
  apply batch_results_inv in Hb. split.
  - symmetry. by eapply Forall2_length.
  - exists m. split; [done|]. intros i symptoms Hi.
    destruct (Forall2_lookup_l _ _ _ i symptoms Hb Hi)
      as (item & Hitem & r & Hr & ->).
    exists (batch_item symptoms r). rewrite batch_item_prediction.
    split; [done|]. split; [done|]. split; [done|]. split.
    + intros Hne. rewrite (predict_disease_run g m) by done.
      simpl. by rewrite Hr.
    + intros ->. split; [unfold predict_disease; by rewrite Hm|].
      apply inference_inv in Hr as (v & logits & p & i0 & Hv & _).
      destruct (symptom_columns g) as [columns|] eqn:Hcols.
      * exists columns. split; [done|]. by apply preprocess_symptoms_nil.
      * by rewrite preprocess_symptoms_unloaded in Hv.
Qed.

(** C9. If the model file or the metadata file is missing at its
    configured path, [lifespan] raises before it yields - a
    [FileNotFoundError], unless loading the model already failed - and
    the server reports the failed startup and answers no request. *)
Theorem missing_artifact_aborts_startup (w : World) :
  os_path_exists w (MODEL_PATH w) = false
  ∨ os_path_exists w (METADATA_PATH w) = false →
  ∃ e,
    (∀ g, (lifespan w g).1 = Raise e)
    ∧ (∀ requests, serve w requests = StartupFailed e)
    ∧ ((∃ msg, e = FileNotFoundError msg)
       ∨ load_model w (MODEL_PATH w) = Raise e).
Proof.
  intros Hmissing.
  assert (Htry : ∃ e, (∀ g, (lifespan_try w g).1 = Raise e)
                      ∧ ((∃ msg, e = FileNotFoundError msg)
                         ∨ load_model w (MODEL_PATH w) = Raise e)).
  { unfold lifespan_try.
    destruct (os_path_exists w (MODEL_PATH w)) eqn:Hmodel; simpl.
    - destruct Hmissing as [Hmissing|Hmissing]; [done|].
      rewrite Hmissing. simpl.
      destruct (load_model w (MODEL_PATH w)) as [m|e]; eauto 6. 
    - eauto 6. }
  destruct Htry as (e & Hraise & Hkind). exists e.
  assert (Hlife : ∀ g, (lifespan w g).1 = Raise e).
  { intros g. specialize (Hraise g). unfold lifespan.
    destruct (lifespan_try w g) as [[[]|e'] g']; simpl in *; [done|].
    by destruct e'. }
  split; [exact Hlife|]. split; [|exact Hkind].
  intros requests. unfold serve. specialize (Hlife (raw initial_globals)).
  destruct (lifespan w (raw initial_globals)) as [[[]|e'] g']; simpl in *;
    congruence.
Qed.

End BatchAndStartup.

Section RankedClaims.
Context `{RuntimeContract}.

(** What holds of every prediction the shared computation returns when
    the collaborators keep their contracts. *)
Lemma inference_ranked (g : Globals) (m : KerasModel)
    (columns labels symptoms : list string) (r : PredictionResponse.t) :
  symptom_columns g = Some columns →
  disease_labels g = Some labels →
  Classifier (length columns) (length labels) m →
  inference g m symptoms = Ok r →
  length (PredictionResponse.top_3_predictions r) = 3 `min` length labels
  ∧ descending
      (map Prediction.confidence (PredictionResponse.top_3_predictions r))
  ∧ Forall in_unit_interval
      (map Prediction.confidence (PredictionResponse.top_3_predictions r)).
Proof.
  intros Hcols Hlabels Hm Hr.
  destruct (probabilities_ok g m columns labels symptoms Hcols Hm)
    as (vec & logits & p & Hv & _ & Hlogits & Hp & Hlen & Hrange).
  apply inference_inv in Hr
    as (v' & logits' & p' & i0 & Hv' & Hlogits' & Hp' & Hpreds & _).
  rewrite Hv in Hv'. injection Hv' as <-.
  rewrite Hlogits in Hlogits'. injection Hlogits' as <-.
  rewrite Hp in Hp'. injection Hp' as <-.
  split; [|split].
  - rewrite (labelled_length _ _ _ _ Hpreds), top_indices_length. by rewrite Hlen.
  - apply labelled_inv in Hpreds.
    eapply confidences_descending; [|apply top_indices_descending].
    eapply Forall2_impl; [exact Hpreds|]. by intros i pr [_ Hc].
  - apply labelled_inv in Hpreds.
    induction Hpreds as [|i pr idxs preds [_ Hc] _ IH]; simpl;
      constructor; [|exact IH].
    rewrite Forall_lookup in Hrange. by eapply Hrange.
Qed.

(** C2 (amended). With the model, a schema and at least one disease
    label loaded, and a classifier of matching shape, [/predict] answers
    every non-empty symptom list with a response whose
    [top_3_predictions] has min(3, M) entries, M the number of labels,
    with confidences in descending order - equal neighbours allowed -
    each between 0 and 1. *)
Theorem top_3_predictions_ranked
    (g : Globals) (m : KerasModel) (columns labels symptoms : list string) :
  model g = Some m →
  symptom_columns g = Some columns →
  disease_labels g = Some labels →
  labels ≠ [] →
  Classifier (length columns) (length labels) m →
  symptoms ≠ [] →
  ∃ r log,
    run (predict_disease g symptoms) = (Ok r, log)
    ∧ length (PredictionResponse.top_3_predictions r)
      = 3 `min` length labels
    ∧ descending
        (map Prediction.confidence (PredictionResponse.top_3_predictions r))
    ∧ Forall in_unit_interval
        (map Prediction.confidence (PredictionResponse.top_3_predictions r)).
Proof.
  intros Hmodel Hcols Hlabels Hne Hm Hsym.
  destruct (inference_total g m columns labels symptoms Hcols Hlabels Hne Hm)
    as [r Hr].
  exists r, (inference_calls g symptoms). split.
  - unfold run. rewrite (predict_disease_run g m) by done. by rewrite Hr.
  - by eapply inference_ranked.
Qed.

Lemma batch_calls_elem (g : Globals) (m : KerasModel)
    (symptoms_list : list (list string)) :
  ∀ items symptoms ev,
    batch_results g m symptoms_list = Ok items →
    symptoms ∈ symptoms_list →
    ev ∈ inference_calls g symptoms →
    ev ∈ batch_calls g m symptoms_list.
Proof.
  induction symptoms_list as [|s rest IH]; intros items symptoms ev Hb Hin Hev.
  - by apply not_elem_of_nil in Hin.
  - simpl in Hb. unfold mbind, result_bind, mret, result_ret in Hb.
    destruct (inference g m s) as [r|e] eqn:Hinf; [|done].
    destruct (batch_results g m rest) as [items'|e] eqn:Hrest; [|done].
    cbn [batch_calls]. rewrite Hinf. apply elem_of_app. apply elem_of_cons in Hin as [->|Hin]; [by left|].
    right. by eapply IH.
Qed.

(** C10. The batch endpoint does not check its items for emptiness.  With
    the model loaded it never answers 400; an empty symptom list is
    vectorized to the all-zero vector, and - schema, labels and a
    classifier of matching shape being in place - a batch that holds one
    succeeds, the classifier is called on the all-zero vector, and the
    entry at the empty list's position carries a prediction.  [/predict]
    rejects the same list with 400. *)
Theorem batch_accepts_empty_item
    (g : Globals) (m : KerasModel) (columns labels : list string)
    (before after : list (list string)) :
  model g = Some m →
  symptom_columns g = Some columns →
  disease_labels g = Some labels →
  labels ≠ [] →
  Classifier (length columns) (length labels) m →
  (∀ symptoms_list detail,
     (run (predict_disease_batch g symptoms_list)).1
     ≠ Raise (HTTPException 400 detail))
  ∧ preprocess_symptoms g [] = Ok [np_zeros (length columns)]
  ∧ (∃ results log item,
       run (predict_disease_batch g (before ++ [] :: after))
       = (Ok results, log)
       ∧ results !! length before = Some item
       ∧ BatchItem.symptoms item = []
       ∧ length (BatchItem.top_3_predictions item) = 3 `min` length labels
       ∧ BatchItem.top_3_predictions item !! 0
         = Some {| Prediction.disease := BatchItem.predicted_disease item;
                   Prediction.confidence := BatchItem.confidence item |}
       ∧ CallPredict [np_zeros (length columns)] ∈ log)
  ∧ (run (predict_disease g [])).1
    = Raise (HTTPException 400 "No symptoms provided").
Proof.
  intros Hmodel Hcols Hlabels Hne Hm.
  pose proof (preprocess_symptoms_nil g columns Hcols) as Hzero.
  split; [|split; [exact Hzero|split]].
  - intros l detail. unfold run.
    rewrite (predict_disease_batch_run g m) by done. simpl.
    by destruct (batch_results g m l).
  - destruct (batch_results_total g m (before ++ [] :: after))
      as [items Hitems].
    { intros s _. by eapply inference_total. }
    pose proof (batch_results_inv g m _ _ Hitems) as Hall.
    assert (Hpos : (before ++ [] :: after) !! length before = Some [])
      by (by rewrite list_lookup_middle).
    destruct (Forall2_lookup_l _ _ _ _ _ Hall Hpos)
      as (item & Hitem & r & Hr & ->).
    exists items, (batch_calls g m (before ++ [] :: after)),
      (batch_item [] r).
    split; [|split; [done|split; [done|split; [|split]]]].
    + unfold run. rewrite (predict_disease_batch_run g m) by done.
      by rewrite Hitems.
    + simpl. by eapply inference_ranked.
    + simpl. apply inference_inv in Hr
        as (v & logits & p & i0 & _ & _ & _ & Hpreds & Hi0 & Hd & Hc).
      apply labelled_inv in Hpreds.
      destruct (Forall2_lookup_l _ _ _ 0 i0 Hpreds Hi0)
        as (first & Hfirst & Hd' & Hc').
      rewrite Hfirst. f_equal. destruct first as [d c]. simpl in *.
      f_equal; congruence.
    + eapply batch_calls_elem; [exact Hitems| |].
      * apply elem_of_app. right. by left.
      * unfold inference_calls. rewrite Hzero. right. by left.
  - unfold run, predict_disease. by rewrite Hmodel.
Qed.

End RankedClaims.

(** * The claims on the reference instance *)

Lemma preprocess_symptoms_indicator_vector_witness :
  ∃ v : list Q,
    preprocess_symptoms Ref.globals ["FEVER"; "zzz"] = Ok [v]
    ∧ length v = 3
    ∧ v !! 0 = Some 1%Q
    ∧ v !! 2 = Some 0%Q.
Proof.
  destruct (preprocess_symptoms_indicator_vector
              Ref.globals Ref.columns ["FEVER"; "zzz"] eq_refl)
    as (v & Hv & Hlen & Hentries).
  exists v. split; [exact Hv|]. split; [exact Hlen|]. split.
  - apply (Hentries 0 "Fever" eq_refl).
    exists "FEVER". split; [apply list_elem_of_here|reflexivity].
  - apply (Hentries 2 "headache" eq_refl).
    intros (s & Hin & Heq).
    apply elem_of_cons in Hin as [->|Hin]; [vm_compute in Heq; discriminate|].
    apply elem_of_cons in Hin as [->|Hin]; [vm_compute in Heq; discriminate|].
    by apply not_elem_of_nil in Hin.
Defined.

Lemma top_3_predictions_ranked_witness :
  ∃ r log,
    run (@predict_disease Ref.runtime Ref.globals ["cough"; "Headache "])
    = (Ok r, log)
    ∧ length (PredictionResponse.top_3_predictions r) = 3
    ∧ descending
        (map Prediction.confidence (PredictionResponse.top_3_predictions r))
    ∧ Forall in_unit_interval
        (map Prediction.confidence (PredictionResponse.top_3_predictions r)).
Proof.
  refine (@top_3_predictions_ranked Ref.runtime ref_runtime_contract
            Ref.globals Ref.classifier Ref.columns Ref.labels
            ["cough"; "Headache "] eq_refl eq_refl eq_refl _ ref_classifier _);
    discriminate.
Defined.

(** The counterexample to C2 as stated: on the recognized symptom "fever"
    the reference classifier returns the logits 0, 0, 0, 0, whose softmax
    is 1/4 four times - exactly, whatever the base of the exponential - so
    the three confidences are 1/4, 1/4, 1/4 whichever way the ties are
    ordered, and do not descend strictly. *)
Lemma top_3_predictions_not_strictly_descending :
  (∀ s, s ∈ ["fever"] →
        ∃ col, col ∈ Ref.columns ∧ normalize s = normalize col)
  ∧ ∃ r log,
      run (@predict_disease Ref.runtime Ref.globals ["fever"]) = (Ok r, log)
      ∧ map Prediction.confidence (PredictionResponse.top_3_predictions r)
        = [1 # 4; 1 # 4; 1 # 4]%Q
      ∧ ¬ strictly_descending
            (map Prediction.confidence
               (PredictionResponse.top_3_predictions r)).
Proof.
  split.
  - intros s Hs. apply list_elem_of_singleton in Hs as ->.
    exists "Fever". split; [apply list_elem_of_here|reflexivity].
  - eexists _, _. split; [vm_compute; reflexivity|].
    split; [reflexivity|]. simpl. unfold strictly_descending. intros Hs.
    apply StronglySorted_cons in Hs as [_ Hs].
    apply StronglySorted_cons in Hs as [Hall _].
    apply Forall_cons in Hall as [Hlt _].
    by apply Qlt_irrefl in Hlt.
Qed.

Lemma top_prediction_is_first_witness :
  ∃ r log first,
    run (@predict_disease Ref.runtime Ref.globals ["fever"; "Headache "])
    = (Ok r, log)
    ∧ PredictionResponse.top_3_predictions r !! 0 = Some first
    ∧ PredictionResponse.predicted_disease r = Prediction.disease first
    ∧ PredictionResponse.confidence r = Prediction.confidence first.
Proof.
  eexists _, _. 
  assert (Hrun : run (@predict_disease Ref.runtime Ref.globals
                        ["fever"; "Headache "]) = (Ok _, _))
    by (vm_compute; reflexivity).
  destruct (@top_prediction_is_first Ref.runtime Ref.globals
              ["fever"; "Headache "] [] _ _ Hrun) as (first & Hfirst).
  exists first. split; [exact Hrun|exact Hfirst].
Defined.

Lemma empty_symptoms_rejected_witness :
  run (@predict_disease Ref.runtime Ref.globals [])
  = (Raise (HTTPException 400 "No symptoms provided"), [])
  ∧ @respond Ref.runtime Ref.world Ref.globals (POST_predict [])
    = ErrorResponse 400 "No symptoms provided".
Proof.
  exact (proj2 (@empty_symptoms_rejected Ref.runtime Ref.world Ref.globals
                  Ref.classifier [] eq_refl)).
Defined.

Lemma batch_matches_single_witness :
  ∃ results log,
    run (@predict_disease_batch Ref.runtime Ref.globals
           [["fever"; "cough"]; ["headache"]]) = (Ok results, log)
    ∧ length results = 2
    ∧ ∃ item,
        results !! 1 = Some item
        ∧ BatchItem.symptoms item = ["headache"]
        ∧ (run (@predict_disease Ref.runtime Ref.globals ["headache"])).1
          = Ok (BatchItem.prediction item).
Proof.
  eexists _, _.
  assert (Hrun : run (@predict_disease_batch Ref.runtime Ref.globals
                        [["fever"; "cough"]; ["headache"]]) = (Ok _, _))
    by (vm_compute; reflexivity).
  destruct (@batch_matches_single Ref.runtime Ref.globals _ _ _ Hrun)
    as [Hlen (m & _ & Hitems)].
  destruct (Hitems 1 ["headache"] eq_refl)
    as (item & Hitem & Hecho & _ & Hsame & _).
  split; [exact Hrun|]. split; [exact Hlen|].
  exists item. split; [exact Hitem|]. split; [exact Hecho|].
  apply Hsame. discriminate.
Defined.

(** The counterexample to C5 as stated: the batch made of one empty list
    succeeds with one entry, while [/predict] on the empty list is a 400
    and so returns no prediction for the entry to equal. *)
Lemma batch_empty_item_has_no_single_result :
  ∃ item log,
    run (@predict_disease_batch Ref.runtime Ref.globals [[]])
    = (Ok [item], log)
    ∧ (run (@predict_disease Ref.runtime Ref.globals [])).1
      = Raise (HTTPException 400 "No symptoms provided")
    ∧ (run (@predict_disease Ref.runtime Ref.globals [])).1
      ≠ Ok (BatchItem.prediction item).
Proof.
  eexists _, _. split; [vm_compute; reflexivity|].
  split; [reflexivity|]. discriminate.
Qed.

Lemma unrecognized_symptoms_ignored_witness :
  (∃ v, preprocess_symptoms Ref.globals (["fever"] ++ ["zzz"; "Sore throat"])
        = Ok v
        ∧ preprocess_symptoms Ref.globals ["fever"] = Ok v)
  ∧ (run (@predict_disease Ref.runtime Ref.globals
            (["fever"] ++ ["zzz"; "Sore throat"]))).1
    = (run (@predict_disease Ref.runtime Ref.globals ["fever"])).1.
Proof.
  assert (Hextra : ∀ e col : string,
             e ∈ ["zzz"; "Sore throat"] → col ∈ Ref.columns →
             normalize e ≠ normalize col).
  { intros e col He Hcol.
    repeat (apply elem_of_cons in He as [->|He]);
      [| |by apply not_elem_of_nil in He];
      repeat (apply elem_of_cons in Hcol as [->|Hcol]);
      try (by apply not_elem_of_nil in Hcol);
      vm_compute; discriminate. }
  destruct (@unrecognized_symptoms_ignored Ref.runtime Ref.globals
              Ref.columns ["fever"] ["zzz"; "Sore throat"] eq_refl Hextra)
    as (Hvec & Hpredict & _).
  split; [exact Hvec|]. apply Hpredict. discriminate.
Defined.

Lemma missing_artifact_aborts_startup_witness :
  ∃ e,
    (∀ g, (lifespan Ref.world_without_metadata g).1 = Raise e)
    ∧ (∀ requests,
         @serve Ref.runtime Ref.world_without_metadata requests
         = StartupFailed e).
Proof.
  destruct (@missing_artifact_aborts_startup Ref.runtime
              Ref.world_without_metadata (or_intror eq_refl))
    as (e & Hlifespan & Hserve & _).
  exists e. split; [exact Hlifespan|exact Hserve].
Defined.

Lemma batch_accepts_empty_item_witness :
  preprocess_symptoms Ref.globals [] = Ok [[0; 0; 0]%Q]
  ∧ ∃ results log item,
      run (@predict_disease_batch Ref.runtime Ref.globals
             ([["fever"]] ++ [] :: [["cough"]])) = (Ok results, log)
      ∧ results !! 1 = Some item
      ∧ BatchItem.symptoms item = []
      ∧ length (BatchItem.top_3_predictions item) = 3
      ∧ CallPredict [[0; 0; 0]%Q] ∈ log.
Proof.
  destruct (@batch_accepts_empty_item Ref.runtime ref_runtime_contract
              Ref.globals Ref.classifier Ref.columns Ref.labels
              [["fever"]] [["cough"]] eq_refl eq_refl eq_refl)
    as (_ & Hzero & (results & log & item & Hrun & Hitem & Hecho & Hlen
                     & _ & Hcall) & _);
    [discriminate|exact ref_classifier|].
  split; [exact Hzero|].
  exists results, log, item. repeat split; assumption.
Defined.

(** * Further properties *)

(** ** Normalization *)

Lemma lower_char_idemp (c : ascii) :
  PyStr.lower_char (PyStr.lower_char c) = PyStr.lower_char c.
Proof.
  destruct c as [b0 b1 b2 b3 b4 b5 b6 b7];
    destruct b0, b1, b2, b3, b4, b5, b6, b7; reflexivity.
Qed.

Lemma isspace_lower_char (c : ascii) :
  PyStr.isspace (PyStr.lower_char c) = PyStr.isspace c.
Proof.
  destruct c as [b0 b1 b2 b3 b4 b5 b6 b7];
    destruct b0, b1, b2, b3, b4, b5, b6, b7; reflexivity.
Qed.

Lemma lower_idemp (s : string) : PyStr.lower (PyStr.lower s) = PyStr.lower s.
Proof.
  induction s as [|c r IH]; simpl; [done|].
  by rewrite lower_char_idemp, IH.
Qed.

Lemma lower_lstrip (s : string) :
  PyStr.lower (PyStr.lstrip s) = PyStr.lstrip (PyStr.lower s).
Proof.
  induction s as [|c r IH]; simpl; [done|].
  rewrite isspace_lower_char. by destruct (PyStr.isspace c).
Qed.

Lemma lower_rstrip (s : string) :
  PyStr.lower (PyStr.rstrip s) = PyStr.rstrip (PyStr.lower s).
Proof.
  induction s as [|c r IH]; simpl; [done|].
  rewrite <- IH, isspace_lower_char.
  destruct (PyStr.rstrip r) as [|c' r']; simpl; [|done].
  by destruct (PyStr.isspace c).
Qed.

Lemma lstrip_idemp (s : string) :
  PyStr.lstrip (PyStr.lstrip s) = PyStr.lstrip s.
Proof.
  induction s as [|c r IH]; simpl; [done|].
  destruct (PyStr.isspace c) eqn:Hc; [done|]. simpl. by rewrite Hc.
Qed.

Lemma rstrip_idemp (s : string) :
  PyStr.rstrip (PyStr.rstrip s) = PyStr.rstrip s.
Proof.
  induction s as [|c r IH]; simpl; [done|].
  destruct (PyStr.rstrip r) as [|c' r'] eqn:Hr.
  - destruct (PyStr.isspace c) eqn:Hc; simpl; [done|]. by rewrite Hc.
  - change (PyStr.rstrip (String c (String c' r')))
      with (match PyStr.rstrip (String c' r') with
            | EmptyString =>
                if PyStr.isspace c then EmptyString else String c EmptyString
            | r'' => String c r''
            end).
    by rewrite IH.
Qed.

(** Stripping on the left keeps a string free of trailing whitespace. *)
Lemma rstrip_lstrip_stable (s : string) :
  PyStr.rstrip s = s → PyStr.rstrip (PyStr.lstrip s) = PyStr.lstrip s.
Proof.
  induction s as [|c r IH]; intros Hs; [done|].
  simpl. destruct (PyStr.isspace c) eqn:Hc; [|exact Hs].
  apply IH. simpl in Hs. rewrite Hc in Hs.
  destruct (PyStr.rstrip r) as [|c' r']; [done|]. by injection Hs.
Qed.

Lemma strip_idemp (s : string) : PyStr.strip (PyStr.strip s) = PyStr.strip s.
Proof.
  unfold PyStr.strip.
  rewrite (rstrip_lstrip_stable (PyStr.rstrip s)) by apply rstrip_idemp.
  apply lstrip_idemp.
Qed.

Lemma normalize_idemp (s : string) : normalize (normalize s) = normalize s.
Proof.
  unfold normalize, PyStr.strip.
  rewrite lower_lstrip, lower_rstrip, lower_idemp.
  apply (strip_idemp (PyStr.lower s)).
Qed.

(** X1. Normalizing is idempotent, so a client that lowercases and trims
    the symptoms itself gets the vector it would have got without. *)
Theorem prenormalized_input_same_vector (g : Globals) (symptoms : list string) :
  (∀ s, normalize (normalize s) = normalize s)
  ∧ preprocess_symptoms g (map normalize symptoms)
    = preprocess_symptoms g symptoms.
Proof.
  split; [exact normalize_idemp|].
  apply preprocess_symptoms_normalized.
  induction symptoms as [|s ss IH]; simpl; [done|].
  by rewrite normalize_idemp, IH.
Qed.

(** ** The vectorizer reads its input as a set *)

Lemma indicator_same_set (ns ns' : list string) (col : string) :
  (∀ x, x ∈ ns ↔ x ∈ ns') → indicator ns col = indicator ns' col.
Proof.
  intros Hset. unfold indicator.
  destruct (PyStr.contains ns (normalize col)) eqn:Hc,
           (PyStr.contains ns' (normalize col)) eqn:Hc'; try done.
  - apply contains_spec, Hset, contains_spec in Hc. congruence.
  - apply contains_spec, Hset, contains_spec in Hc'. congruence.
Qed.

Lemma indicator_is_one (ns : list string) (col : string) :
  indicator ns col = 1%Q ↔ normalize col ∈ ns.
Proof.
  unfold indicator. rewrite <- contains_spec.
  by destruct (PyStr.contains ns (normalize col)).
Qed.

(** X2. Only the set of normalized input strings matters: two lists with
    the same normal forms, in any order and with any repetitions, are
    vectorized alike. *)
Theorem preprocess_symptoms_same_set (g : Globals) (xs ys : list string) :
  (∀ x, x ∈ map normalize xs ↔ x ∈ map normalize ys) →
  preprocess_symptoms g xs = preprocess_symptoms g ys.
Proof.
  intros Hset. destruct (symptom_columns g) as [columns|] eqn:Hcols.
  - rewrite !(preprocess_symptoms_eq g columns) by done.
    f_equal. f_equal. apply map_ext. intros col.
    by apply indicator_same_set.
  - by rewrite !preprocess_symptoms_unloaded.
Qed.

Lemma preprocess_symptoms_same_set_witness :
  preprocess_symptoms Ref.globals ["fever"; " Cough"; "FEVER "]
  = preprocess_symptoms Ref.globals ["cough"; "fever"].
Proof.
  apply preprocess_symptoms_same_set.
  change (map normalize ["fever"; " Cough"; "FEVER "])
    with ["fever"; "cough"; "fever"].
  change (map normalize ["cough"; "fever"]) with ["cough"; "fever"].
  intros x. rewrite !elem_of_cons. rewrite !elem_of_nil. tauto.
Defined.

(** X3. Vectorizing a concatenation is the entrywise "or" of the two
    vectors: an entry is 1 for [xs ++ ys] exactly when it is 1 for [xs] or
    for [ys], so adding symptoms never clears an entry. *)
Theorem preprocess_symptoms_app
    (g : Globals) (columns xs ys : list string) :
  symptom_columns g = Some columns →
  ∃ vx vy vxy : list Q,
    preprocess_symptoms g xs = Ok [vx]
    ∧ preprocess_symptoms g ys = Ok [vy]
    ∧ preprocess_symptoms g (xs ++ ys) = Ok [vxy]
    ∧ ∀ i, vxy !! i = Some 1%Q ↔ vx !! i = Some 1%Q ∨ vy !! i = Some 1%Q.
Proof.
  intros Hcols.
  exists (indicator (map normalize xs) <$> columns),
    (indicator (map normalize ys) <$> columns),
    (indicator (map normalize (xs ++ ys)) <$> columns).
  split; [by apply preprocess_symptoms_eq|].
  split; [by apply preprocess_symptoms_eq|].
  split; [by apply preprocess_symptoms_eq|].
  intros i. rewrite !list_lookup_fmap.
  destruct (columns !! i) as [col|]; simpl; [|split; [done|by intros [?|?]]].
  assert (Hinj : ∀ q : Q, Some q = Some 1%Q ↔ q = 1%Q)
    by (intros q; split; [by intros [= ->]|by intros ->]).
  rewrite !Hinj, !indicator_is_one, map_app, elem_of_app. tauto.
Qed.

Lemma preprocess_symptoms_app_witness :
  ∃ vx vy vxy : list Q,
    preprocess_symptoms Ref.globals ["fever"] = Ok [vx]
    ∧ preprocess_symptoms Ref.globals ["headache"] = Ok [vy]
    ∧ preprocess_symptoms Ref.globals (["fever"] ++ ["headache"]) = Ok [vxy]
    ∧ ∀ i, vxy !! i = Some 1%Q ↔ vx !! i = Some 1%Q ∨ vy !! i = Some 1%Q.
Proof.
  exact (preprocess_symptoms_app Ref.globals Ref.columns
           ["fever"] ["headache"] eq_refl).
Defined.

(** ** Startup *)

Lemma strings_of_names (l : list string) : strings_of (map JString l) = Some l.
Proof. induction l as [|s l IH]; simpl; [done|]. by rewrite IH. Qed.

Lemma typed_raw_loaded (m : KerasModel) (columns labels : list string) :
  typed (raw (loaded m columns labels)) = Some (loaded m columns labels).
Proof.
  unfold typed, raw, loaded, names_of, names. simpl.
  by rewrite !strings_of_names.
Qed.

Lemma lifespan_loaded (w : World) (m : KerasModel)
    (columns labels : list string) (g : RawGlobals) :
  Artifacts w m columns labels →
  lifespan w g = (Ok tt, raw (loaded m columns labels)).
Proof.
  intros (Hmodel & Hload & Hmeta & metadata & Hjson & Hcols & Hlabels).
  unfold lifespan, lifespan_try, py_getitem, raw, loaded.
  by rewrite Hmodel, Hload, Hmeta, Hjson, Hcols, Hlabels.
Qed.

Lemma ref_artifacts : Artifacts Ref.world Ref.classifier Ref.columns Ref.labels.
Proof.
  repeat split. eexists. split; [reflexivity|]. split; reflexivity.
Qed.

(** X4. Startup succeeds exactly when both files exist, the model loads,
    and the metadata parses to an object that holds, under
    [symptom_columns] and under [disease_labels], values that have a
    length; it then leaves the model and these two values in the globals,
    whatever they held before. *)
Theorem lifespan_succeeds_iff (w : World) (g g' : RawGlobals) :
  lifespan w g = (Ok tt, g')
  ↔ os_path_exists w (MODEL_PATH w) = true
    ∧ os_path_exists w (METADATA_PATH w) = true
    ∧ ∃ m metadata columns labels n k,
        load_model w (MODEL_PATH w) = Ok m
        ∧ json_load w (METADATA_PATH w) = Ok (JObject metadata)
        ∧ dict_get metadata "symptom_columns" = Some columns
        ∧ py_len columns = Ok n
        ∧ dict_get metadata "disease_labels" = Some labels
        ∧ py_len labels = Ok k
        ∧ g' = {| raw_model := Some m;
                  raw_symptom_columns := Some columns;
                  raw_disease_labels := Some labels |}.
Proof.
  unfold lifespan, lifespan_try. split.
  - destruct (os_path_exists w (MODEL_PATH w)); simpl; [|done].
    destruct (load_model w (MODEL_PATH w)) as [m|e]; [|by destruct e].
    destruct (os_path_exists w (METADATA_PATH w)); simpl; [|done].
    destruct (json_load w (METADATA_PATH w)) as [metadata|e];
      [|by destruct e].
    destruct metadata as [| | | | | |items]; simpl; try done.
    destruct (dict_get items "symptom_columns") as [columns|] eqn:Hcols;
      [|done].
    destruct (py_len columns) as [n|e] eqn:Hn; [|by destruct e].
    destruct (dict_get items "disease_labels") as [labels|] eqn:Hlabels;
      [|done].
    destruct (py_len labels) as [k|e] eqn:Hk; [|by destruct e].
    intros [= <-]. do 2 (split; [done|]).
    by exists m, items, columns, labels, n, k.
  - intros (Hmodel & Hmeta & m & metadata & columns & labels & n & k
            & Hload & Hjson & Hcols & Hn & Hlabels & Hk & ->).
    rewrite Hmodel, Hload, Hmeta, Hjson. simpl.
    by rewrite Hcols, Hn, Hlabels, Hk.
Qed.

Section StartupFacts.
Context `{Runtime}.

(** X5. When the files are there, the model loads and the metadata is an
    object that lacks [symptom_columns], or holds a [symptom_columns] that
    has a length and lacks [disease_labels], startup fails with the
    [KeyError] of the missing key and the server answers nothing; the
    [model] global has been assigned by then. *)
Theorem lifespan_missing_key
    (w : World) (m : KerasModel) (metadata : list (string * json)) :
  os_path_exists w (MODEL_PATH w) = true →
  load_model w (MODEL_PATH w) = Ok m →
  os_path_exists w (METADATA_PATH w) = true →
  json_load w (METADATA_PATH w) = Ok (JObject metadata) →
  dict_get metadata "symptom_columns" = None
  ∨ (∃ columns n,
       dict_get metadata "symptom_columns" = Some columns
       ∧ py_len columns = Ok n
       ∧ dict_get metadata "disease_labels" = None) →
  ∃ key,
    key = match dict_get metadata "symptom_columns" with
          | Some _ => "disease_labels"
          | None => "symptom_columns"
          end
    ∧ (∀ g, ∃ g', lifespan w g = (Raise (KeyError key), g')
                  ∧ raw_model g' = Some m
                  ∧ raw_disease_labels g' = raw_disease_labels g)
    ∧ ∀ requests, serve w requests = StartupFailed (KeyError key).
Proof.
  intros Hmodel Hload Hmeta Hjson Hmissing.
  unfold serve, lifespan, lifespan_try, py_getitem.
  rewrite Hmodel, Hload, Hmeta, Hjson. simpl.
  destruct Hmissing as [Hcols|(columns & n & Hcols & Hn & Hlabels)];
    rewrite Hcols.
  - exists "symptom_columns". split; [done|]. split; [|done].
    intros g. by eexists.
  - rewrite Hn, Hlabels.
    exists "disease_labels". split; [done|]. split; [|done].
    intros g. by eexists.
Qed.

(** X6. After a successful startup the server answers every request, and
    the informational endpoints report what startup loaded: [/symptoms]
    and [/diseases] return the two lists with their lengths as totals,
    [/health] is healthy with the same totals, [/] says the model is
    loaded - at every position of the request sequence. *)
Theorem serve_reports_loaded_metadata
    (w : World) (m : KerasModel) (columns labels : list string)
    (requests : list Request) :
  Artifacts w m columns labels →
  ∃ responses,
    serve w requests = Served responses
    ∧ length responses = length requests
    ∧ ∀ i req, requests !! i = Some req →
        match req with
        | GET_symptoms =>
            responses !! i
            = Some (Response 200 (SymptomsBody columns (length columns)))
        | GET_diseases =>
            responses !! i
            = Some (Response 200 (DiseasesBody labels (length labels)))
        | GET_health =>
            responses !! i
            = Some (Response 200
                      (HealthBody "healthy" true true true
                         (length columns) (length labels)))
        | GET_root =>
            responses !! i
            = Some (Response 200
                      (RootBody "Disease Prediction API is running" "healthy"
                         true (ENVIRONMENT w) "1.0.0"))
        | POST_predict _ | POST_predict_batch _ => True
        end.
Proof.
  intros Hart. unfold serve.
  rewrite (lifespan_loaded w m columns labels) by done.
  rewrite typed_raw_loaded.
  eexists. split; [reflexivity|]. split; [by rewrite length_map|].
  intros i req Hreq.
  change (map ?f ?l) with (f <$> l). rewrite list_lookup_fmap, Hreq.
  by destruct req.
Qed.

(** X17. When the files are there and the model loads, but the metadata
    is no object, or holds under [symptom_columns] a value without a
    length (a number, a boolean, null), startup fails with a [TypeError]
    and the server answers nothing. *)
Theorem lifespan_unsized_metadata
    (w : World) (m : KerasModel) (metadata : json) :
  os_path_exists w (MODEL_PATH w) = true →
  load_model w (MODEL_PATH w) = Ok m →
  os_path_exists w (METADATA_PATH w) = true →
  json_load w (METADATA_PATH w) = Ok metadata →
  (∀ items, metadata ≠ JObject items)
  ∨ (∃ items columns,
       metadata = JObject items
       ∧ dict_get items "symptom_columns" = Some columns
       ∧ ∀ n, py_len columns ≠ Ok n) →
  ∃ msg,
    (∀ g, (lifespan w g).1 = Raise (TypeError msg))
    ∧ ∀ requests, serve w requests = StartupFailed (TypeError msg).
Proof.
  intros Hmodel Hload Hmeta Hjson Hbad.
  unfold serve, lifespan, lifespan_try.
  rewrite Hmodel, Hload, Hmeta, Hjson. simpl.
  destruct Hbad as [Hobj|(items & columns & -> & Hcols & Hn)].
  - destruct metadata as [| | | | | |items]; simpl; try (by eexists).
    by destruct (Hobj items).
  - simpl. rewrite Hcols.
    destruct columns as [| | | |s|elements|fields]; simpl;
      try (by eexists); by destruct (Hn _ eq_refl).
Qed.

End StartupFacts.

Lemma lifespan_missing_key_witness :
  @serve Ref.runtime Cases.world_without_labels
    [GET_health; POST_predict ["fever"]]
  = StartupFailed (KeyError "disease_labels").
Proof.
  destruct (@lifespan_missing_key Ref.runtime Cases.world_without_labels
              Ref.classifier [("symptom_columns", names Ref.columns)]
              eq_refl eq_refl eq_refl eq_refl
              (or_intror (ex_intro _ (names Ref.columns)
                            (ex_intro _ 3
                               (conj eq_refl (conj eq_refl eq_refl))))))
    as (key & -> & _ & Hserve).
  exact (Hserve [GET_health; POST_predict ["fever"]]).
Defined.

Lemma serve_reports_loaded_metadata_witness :
  ∃ responses,
    @serve Ref.runtime Ref.world [GET_health; GET_symptoms] = Served responses
    ∧ responses !! 1
      = Some (Response 200 (SymptomsBody Ref.columns 3)).
Proof.
  destruct (@serve_reports_loaded_metadata Ref.runtime Ref.world
              Ref.classifier Ref.columns Ref.labels
              [GET_health; GET_symptoms] ref_artifacts)
    as (responses & Hserve & _ & Hat).
  exists responses. split; [exact Hserve|].
  exact (Hat 1 GET_symptoms eq_refl).
Defined.

Lemma lifespan_unsized_metadata_witness :
  @serve Ref.runtime Cases.world_with_count [GET_health]
  = StartupFailed (TypeError "object of type 'int' has no len()").
Proof.
  destruct (@lifespan_unsized_metadata Ref.runtime Cases.world_with_count
              Ref.classifier
              (JObject [("symptom_columns", JInt 5);
                        ("disease_labels", names Ref.labels)])
              eq_refl eq_refl eq_refl eq_refl)
    as (msg & Hlifespan & Hserve).
  - right. exists [("symptom_columns", JInt 5);
                   ("disease_labels", names Ref.labels)], (JInt 5).
    split; [reflexivity|]. split; [reflexivity|]. discriminate.
  - specialize (Hlifespan (raw initial_globals)).
    injection Hlifespan as <-. exact (Hserve [GET_health]).
Defined.

(** ** What the prediction endpoints answer *)

Section Answers.
Context `{Runtime}.

Lemma respond_predict (w : World) (g : Globals) (symptoms : list string) :
  respond w g (POST_predict symptoms)
  = match (run (predict_disease g symptoms)).1 with
    | Ok r => Response 200 (PredictBody r)
    | Raise (HTTPException status_code detail) =>
        ErrorResponse status_code detail
    | Raise _ => ErrorResponse 500 "Internal Server Error"
    end.
Proof.
  unfold respond, run, dispatch, mbind, M_bind, bind.
  by destruct (predict_disease g symptoms []) as [[r|e] log].
Qed.

Lemma respond_batch (w : World) (g : Globals) (l : list (list string)) :
  respond w g (POST_predict_batch l)
  = match (run (predict_disease_batch g l)).1 with
    | Ok items => Response 200 (BatchBody items)
    | Raise (HTTPException status_code detail) =>
        ErrorResponse status_code detail
    | Raise _ => ErrorResponse 500 "Internal Server Error"
    end.
Proof.
  unfold respond, run, dispatch, mbind, M_bind, bind.
  by destruct (predict_disease_batch g l []) as [[r|e] log].
Qed.

(** X7. The [/predict] handler either returns a response (model loaded,
    list not empty) or raises one of three exceptions: [HTTPException] 400
    "No symptoms provided" (model loaded, list empty), 500 "Model not
    loaded" (no model, whatever the list - the model is checked first) or
    500 "Prediction error: ..." carrying the message of the exception
    caught; nothing else escapes it.  The batch handler returns one entry
    per item or raises 500 "Model not loaded" or 500 "Batch prediction
    error: ...". *)
Theorem prediction_handler_outcomes
    (g : Globals) (symptoms : list string)
    (symptoms_list : list (list string)) :
  ((∃ r, (run (predict_disease g symptoms)).1 = Ok r
         ∧ is_Some (model g) ∧ symptoms ≠ [])
   ∨ ((run (predict_disease g symptoms)).1
      = Raise (HTTPException 400 "No symptoms provided")
      ∧ is_Some (model g) ∧ symptoms = [])
   ∨ ((run (predict_disease g symptoms)).1
      = Raise (HTTPException 500 "Model not loaded")
      ∧ model g = None)
   ∨ (∃ e, (run (predict_disease g symptoms)).1
           = Raise (HTTPException 500 ("Prediction error: " ++ str e))
           ∧ is_Some (model g) ∧ symptoms ≠ []))
  ∧ ((∃ items, (run (predict_disease_batch g symptoms_list)).1 = Ok items
               ∧ length items = length symptoms_list
               ∧ is_Some (model g))
     ∨ ((run (predict_disease_batch g symptoms_list)).1
        = Raise (HTTPException 500 "Model not loaded")
        ∧ model g = None)
     ∨ (∃ e, (run (predict_disease_batch g symptoms_list)).1
             = Raise (HTTPException 500
                        ("Batch prediction error: " ++ str e))
             ∧ is_Some (model g))).
Proof.
  unfold run.
  destruct (model g) as [m|] eqn:Hm; split.
  - destruct symptoms as [|s ss].
    + right. left. unfold predict_disease. rewrite Hm. by eauto.
    + rewrite (predict_disease_run g m) by done. simpl.
      destruct (inference g m (s :: ss)) as [r|e].
      * left. exists r. by eauto.
      * right. right. right. exists e. by eauto.
  - rewrite (predict_disease_batch_run g m) by done. simpl.
    destruct (batch_results g m symptoms_list) as [items|e] eqn:Hb.
    + left. exists items. split; [done|]. split; [|by eauto].
      apply batch_results_inv in Hb. symmetry. by eapply Forall2_length.
    + right. right. exists e. by eauto.
  - right. right. left. unfold predict_disease. by rewrite Hm.
  - right. left. unfold predict_disease_batch. by rewrite Hm.
Qed.

(** X8. When the classifier raises on the vector of a non-empty request,
    [/predict] answers 500 with "Prediction error: " followed by the
    classifier's message, having called the vectorizer and the classifier
    once each. *)
Theorem classifier_failure_is_500
    (w : World) (g : Globals) (m : KerasModel) (symptoms : list string)
    (v : list (list Q)) (e : exn) :
  model g = Some m →
  symptoms ≠ [] →
  preprocess_symptoms g symptoms = Ok v →
  predict m v = Raise e →
  run (predict_disease g symptoms)
  = (Raise (HTTPException 500 ("Prediction error: " ++ str e)),
     [CallPreprocess symptoms; CallPredict v])
  ∧ respond w g (POST_predict symptoms)
    = ErrorResponse 500 ("Prediction error: " ++ str e).
Proof.
  intros Hm Hne Hv He.
  assert (Hrun : run (predict_disease g symptoms)
                 = (Raise (HTTPException 500 ("Prediction error: " ++ str e)),
                    [CallPreprocess symptoms; CallPredict v])).
  { unfold run. rewrite (predict_disease_run g m) by done.
    unfold inference, inference_calls, mbind, result_bind.
    by rewrite Hv, He. }
  split; [exact Hrun|]. rewrite respond_predict. by rewrite Hrun.
Qed.

End Answers.

Lemma classifier_failure_is_500_witness :
  @respond Ref.runtime Ref.world Cases.failing_globals
    (POST_predict ["Headache"])
  = ErrorResponse 500 "Prediction error: Graph execution error".
Proof.
  exact (proj2 (@classifier_failure_is_500 Ref.runtime Ref.world
                  Cases.failing_globals Cases.failing_classifier
                  ["Headache"] [[0; 0; 1]%Q]
                  (LibraryError "Graph execution error")
                  eq_refl ltac:(discriminate) eq_refl eq_refl)).
Defined.

(** ** The batch loop, item by item *)

Section BatchItems.
Context `{Runtime}.

Lemma batch_results_app (g : Globals) (m : KerasModel)
    (l1 l2 : list (list string)) :
  batch_results g m (l1 ++ l2)
  = match batch_results g m l1 with
    | Ok r1 =>
        match batch_results g m l2 with
        | Ok r2 => Ok (r1 ++ r2)
        | Raise e => Raise e
        end
    | Raise e => Raise e
    end.
Proof.
  induction l1 as [|s l1 IH]; simpl.
  - by destruct (batch_results g m l2).
  - unfold mbind, result_bind, mret, result_ret.
    destruct (inference g m s) as [r|e]; [|done]. rewrite IH.
    destruct (batch_results g m l1) as [r1|e]; [|done].
    by destruct (batch_results g m l2).
Qed.

Lemma batch_calls_app (g : Globals) (m : KerasModel)
    (l1 l2 : list (list string)) :
  batch_calls g m (l1 ++ l2)
  = batch_calls g m l1
      ++ match batch_results g m l1 with
         | Ok _ => batch_calls g m l2
         | Raise _ => []
         end.
Proof.
  induction l1 as [|s l1 IH]; simpl; [done|].
  unfold mbind, result_bind, mret, result_ret.
  destruct (inference g m s) as [r|e]; [|by rewrite !app_nil_r].
  rewrite IH, <- app_assoc. by destruct (batch_results g m l1).
Qed.

(** A run of the batch endpoint, read back in terms of the loop. *)
Lemma batch_run_inv (g : Globals) (l : list (list string))
    (res : result (list BatchItem.t)) (log : list Event) :
  run (predict_disease_batch g l) = (res, log) →
  res ≠ Raise (HTTPException 500 "Model not loaded") →
  ∃ m, model g = Some m
       ∧ log = batch_calls g m l
       ∧ res = match batch_results g m l with
               | Ok items => Ok items
               | Raise e =>
                   Raise (HTTPException 500
                            ("Batch prediction error: " ++ str e))
               end.
Proof.
  unfold run. intros Hrun Hres.
  destruct (model g) as [m|] eqn:Hm.
  - rewrite (predict_disease_batch_run g m) in Hrun by done.
    injection Hrun as <- <-. by exists m.
  - unfold predict_disease_batch in Hrun. rewrite Hm in Hrun.
    injection Hrun as <- _. done.
Qed.

(** X9. Items are independent and processed in order: if the batch
    endpoint succeeds on [l1] and on [l2], then on [l1 ++ l2] it returns
    the first results followed by the second, and logs the first calls
    followed by the second. *)
Theorem batch_of_concatenation
    (g : Globals) (l1 l2 : list (list string))
    (r1 r2 : list BatchItem.t) (log1 log2 : list Event) :
  run (predict_disease_batch g l1) = (Ok r1, log1) →
  run (predict_disease_batch g l2) = (Ok r2, log2) →
  run (predict_disease_batch g (l1 ++ l2)) = (Ok (r1 ++ r2), log1 ++ log2).
Proof.
  intros H1 H2.
  apply batch_run_inv in H1 as (m & Hm & -> & Hr1); [|done].
  apply batch_run_inv in H2 as (m' & Hm' & -> & Hr2); [|done].
  assert (m' = m) as -> by congruence.
  unfold run. rewrite (predict_disease_batch_run g m) by done.
  rewrite batch_results_app, batch_calls_app. simpl.
  destruct (batch_results g m l1) as [items1|e]; [|done].
  destruct (batch_results g m l2) as [items2|e]; [|done].
  by injection Hr1 as ->; injection Hr2 as ->.
Qed.

(** X10. The batch fails fast: when the items [before] succeed and the
    item [bad] alone is answered with an error, the batch
    [before ++ bad :: after] is answered with that same error; the
    results of [before] are dropped, and nothing of [after] is vectorized
    or classified - the log ends with the calls made for [bad]. *)
Theorem batch_fails_fast
    (g : Globals) (before after : list (list string)) (bad : list string)
    (results : list BatchItem.t) (err : exn) (log1 log2 : list Event) :
  run (predict_disease_batch g before) = (Ok results, log1) →
  run (predict_disease_batch g [bad]) = (Raise err, log2) →
  run (predict_disease_batch g (before ++ bad :: after))
  = (Raise err, log1 ++ log2).
Proof.
  intros H1 H2.
  apply batch_run_inv in H1 as (m & Hm & -> & Hr1); [|done].
  unfold run in *. rewrite (predict_disease_batch_run g m) in H2 |- * by done.
  change (bad :: after) with ([bad] ++ after).
  rewrite batch_results_app, batch_calls_app.
  rewrite (batch_results_app g m [bad] after).
  rewrite (batch_calls_app g m [bad] after).
  destruct (batch_results g m before) as [items|e]; [|done].
  destruct (batch_results g m [bad]) as [items'|e]; [done|].
  injection H2 as <- <-. by rewrite !app_nil_r.
Qed.

(** X11. A successful batch calls the vectorizer and then the classifier
    exactly once per item, in the order of the items, the classifier on
    the item's indicator vector. *)
Theorem batch_calls_once_per_item
    (g : Globals) (columns : list string) (l : list (list string))
    (results : list BatchItem.t) (log : list Event) :
  symptom_columns g = Some columns →
  run (predict_disease_batch g l) = (Ok results, log) →
  log = l ≫= (λ symptoms,
                [CallPreprocess symptoms;
                 CallPredict
                   [map (indicator (map normalize symptoms)) columns]]).
Proof.
  intros Hcols Hrun.
  apply batch_run_inv in Hrun as (m & Hm & -> & Hres); [|done].
  clear Hm. revert results Hres.
  induction l as [|s l IH]; intros results Hres; [done|].
  simpl in Hres |- *. unfold mbind, result_bind, mret, result_ret in Hres.
  destruct (inference g m s) as [r|e]; [|done].
  destruct (batch_results g m l) as [items|e] eqn:Hb; [|done].
  unfold inference_calls.
  rewrite (preprocess_symptoms_eq g columns) by done. simpl.
  do 2 f_equal. by eapply IH.
Qed.

End BatchItems.

Lemma batch_of_concatenation_witness :
  ∃ results log,
    run (@predict_disease_batch Ref.runtime Ref.globals
           ([["fever"]] ++ [[]; ["cough"; "headache"]]))
    = (Ok results, log)
    ∧ length results = 3.
Proof.
  eexists _, _.
  split.
  - apply (@batch_of_concatenation Ref.runtime Ref.globals
             [["fever"]] [[]; ["cough"; "headache"]]);
      vm_compute; reflexivity.
  - reflexivity.
Defined.

Lemma batch_fails_fast_witness :
  run (@predict_disease_batch Ref.runtime Cases.failing_globals
         ([["fever"]] ++ ["headache"] :: [["cough"]]))
  = (Raise (HTTPException 500
              "Batch prediction error: Graph execution error"),
     [CallPreprocess ["fever"]; CallPredict [[1; 0; 0]%Q];
      CallPreprocess ["headache"]; CallPredict [[0; 0; 1]%Q]]).
Proof.
  eapply (@batch_fails_fast Ref.runtime Cases.failing_globals
            [["fever"]] [["cough"]] ["headache"] _ _
            [CallPreprocess ["fever"]; CallPredict [[1; 0; 0]%Q]]
            [CallPreprocess ["headache"]; CallPredict [[0; 0; 1]%Q]]);
    vm_compute; reflexivity.
Defined.

Lemma batch_calls_once_per_item_witness :
  ∃ results,
    run (@predict_disease_batch Ref.runtime Ref.globals
           [["fever"]; ["cough"]])
    = (Ok results,
       [CallPreprocess ["fever"]; CallPredict [[1; 0; 0]%Q];
        CallPreprocess ["cough"]; CallPredict [[0; 1; 0]%Q]]).
Proof.
  assert (Hrun : run (@predict_disease_batch Ref.runtime Ref.globals
                        [["fever"]; ["cough"]]) = (Ok _, _))
    by (vm_compute; reflexivity).
  pose proof (@batch_calls_once_per_item Ref.runtime Ref.globals Ref.columns
                [["fever"]; ["cough"]] _ _ eq_refl Hrun) as Hlog.
  eexists. rewrite Hrun, Hlog. reflexivity.
Defined.

(** ** What a prediction reports *)

Section Reports.
Context `{Runtime}.

(** A successful [/predict] run, read back in terms of the shared
    computation. *)
Lemma predict_run_inv (g : Globals) (symptoms : list string)
    (r : PredictionResponse.t) (log : list Event) :
  run (predict_disease g symptoms) = (Ok r, log) →
  ∃ m, model g = Some m ∧ symptoms ≠ [] ∧ inference g m symptoms = Ok r.
Proof.
  unfold run. intros Hrun.
  destruct (model g) as [m|] eqn:Hm;
    [|unfold predict_disease in Hrun; by rewrite Hm in Hrun].
  destruct symptoms as [|s ss];
    [unfold predict_disease in Hrun; by rewrite Hm in Hrun|].
  rewrite (predict_disease_run g m) in Hrun by done.
  destruct (inference g m (s :: ss)) as [r'|e] eqn:Hinf; [|done].
  injection Hrun as -> _. by exists m.
Qed.

(** X12. Every disease name in a successful response - the top-level one
    and those of [top_3_predictions] - is an entry of the loaded labels. *)
Theorem reported_diseases_are_labels
    (g : Globals) (labels symptoms : list string)
    (r : PredictionResponse.t) (log : list Event) :
  disease_labels g = Some labels →
  run (predict_disease g symptoms) = (Ok r, log) →
  PredictionResponse.predicted_disease r ∈ labels
  ∧ ∀ pr, pr ∈ PredictionResponse.top_3_predictions r →
          Prediction.disease pr ∈ labels.
Proof.
  intros Hlabels Hrun.
  apply predict_run_inv in Hrun as (m & _ & _ & Hinf).
  apply inference_inv in Hinf
    as (v & logits & p & i0 & _ & _ & _ & Hpreds & _ & Hd & _).
  rewrite Hlabels in Hd. apply list_getitem_Ok in Hd. split.
  - by eapply list_elem_of_lookup_2.
  - intros pr Hpr. apply labelled_inv in Hpreds.
    apply list_elem_of_lookup in Hpr as [k Hk].
    destruct (Forall2_lookup_r _ _ _ k pr Hpreds Hk) as (i & _ & Hi & _).
    rewrite Hlabels in Hi. apply list_getitem_Ok in Hi.
    by eapply list_elem_of_lookup_2.
Qed.

(** X13. Without disease labels - the global unset or the list empty - no
    prediction is ever returned: with the model loaded, every non-empty
    request is answered 500 "Prediction error: ...". *)
Theorem no_labels_no_prediction
    (g : Globals) (m : KerasModel) (symptoms : list string) :
  model g = Some m →
  symptoms ≠ [] →
  disease_labels g = None ∨ disease_labels g = Some [] →
  ∃ e, (run (predict_disease g symptoms)).1
       = Raise (HTTPException 500 ("Prediction error: " ++ str e)).
Proof.
  intros Hm Hne Hlabels. unfold run.
  rewrite (predict_disease_run g m) by done. simpl.
  destruct (inference g m symptoms) as [r|e] eqn:Hinf; [|by exists e].
  apply inference_inv in Hinf
    as (v & logits & p & i0 & _ & _ & _ & _ & _ & Hd & _).
  by destruct Hlabels as [Hl|Hl]; rewrite Hl in Hd.
Qed.

End Reports.

Lemma reported_diseases_are_labels_witness :
  ∃ r log,
    run (@predict_disease Ref.runtime Ref.globals ["cough"; "headache"])
    = (Ok r, log)
    ∧ PredictionResponse.predicted_disease r ∈ Ref.labels.
Proof.
  eexists _, _.
  assert (Hrun : run (@predict_disease Ref.runtime Ref.globals
                        ["cough"; "headache"]) = (Ok _, _))
    by (vm_compute; reflexivity).
  split; [exact Hrun|].
  exact (proj1 (@reported_diseases_are_labels Ref.runtime Ref.globals
                  Ref.labels ["cough"; "headache"] _ _ eq_refl Hrun)).
Defined.

Lemma no_labels_no_prediction_witness :
  ∃ e, (run (@predict_disease Ref.runtime Cases.unlabelled_globals
               ["fever"])).1
       = Raise (HTTPException 500 ("Prediction error: " ++ str e)).
Proof.
  apply (@no_labels_no_prediction Ref.runtime Cases.unlabelled_globals
           Ref.classifier ["fever"] eq_refl); [discriminate|].
  right. reflexivity.
Defined.

(** ** The ranking picks the largest probabilities *)

Section Largest.
Context `{RuntimeContract}.

Lemma top_indices_NoDup (p : list Q) :
  NoDup (reversed (slice_last 3 (np_argsort p))).
Proof.
  unfold reversed, slice_last. rewrite reverse_Permutation.
  eapply sublist_NoDup; [|apply sublist_drop].
  rewrite (argsort_permutation p). apply NoDup_seq.
Qed.

(** An index left out of the top three selects no more than any index
    kept. *)
Lemma top_indices_dominate (p : list Q) (i j : nat) :
  i ∈ reversed (slice_last 3 (np_argsort p)) →
  j < length p →
  j ∉ reversed (slice_last 3 (np_argsort p)) →
  (value_at p j <= value_at p i)%Q.
Proof.
  unfold reversed, slice_last. rewrite !elem_of_reverse. intros Hi Hj Hnj.
  assert (Hin : j ∈ np_argsort p).
  { rewrite (argsort_permutation p). apply elem_of_seq. lia. }
  pose proof (argsort_ascending p) as Hs.
  rewrite <- (take_drop (length (np_argsort p) - 3) (np_argsort p)) in Hin, Hs.
  apply elem_of_app in Hin as [Hin|Hin]; [|done].
  by eapply (StronglySorted_app_1_elem_of _ _ _ _ _ Hs).
Qed.

(** The first of the top three selects the largest value of all. *)
Lemma top_index_is_argmax (p : list Q) (i0 j : nat) :
  reversed (slice_last 3 (np_argsort p)) !! 0 = Some i0 →
  j < length p →
  (value_at p j <= value_at p i0)%Q.
Proof.
  intros Hi0 Hj.
  destruct (decide (j ∈ reversed (slice_last 3 (np_argsort p)))) as [Hin|Hnin].
  - pose proof (top_indices_descending p) as Hs.
    destruct (reversed (slice_last 3 (np_argsort p))) as [|i rest]; [done|].
    injection Hi0 as ->. apply StronglySorted_cons in Hs as [Hall _].
    apply elem_of_cons in Hin as [->|Hin]; [apply Qle_refl|].
    rewrite Forall_forall in Hall. by apply Hall.
  - apply top_indices_dominate; [|done|done].
    by eapply list_elem_of_lookup_2.
Qed.

(** X14. The top prediction is a most probable class, and the three
    listed are the three most probable: the response's [confidence] is at
    least every entry of the probability vector, the entries of
    [top_3_predictions] are read at pairwise different classes, and every
    class that is not listed has a probability no larger than any
    confidence that is. *)
Theorem top_3_are_the_largest
    (g : Globals) (symptoms : list string)
    (r : PredictionResponse.t) (log : list Event) :
  run (predict_disease g symptoms) = (Ok r, log) →
  ∃ m v logits p idxs,
    model g = Some m
    ∧ preprocess_symptoms g symptoms = Ok v
    ∧ predict m v = Ok logits
    ∧ tf_nn_softmax logits !! 0 = Some p
    ∧ (∀ x, x ∈ p → (x <= PredictionResponse.confidence r)%Q)
    ∧ NoDup idxs
    ∧ Forall2
        (λ i pr, p !! i = Some (Prediction.confidence pr)
                 ∧ list_getitem (disease_labels g) i
                   = Ok (Prediction.disease pr))
        idxs (PredictionResponse.top_3_predictions r)
    ∧ ∀ j x pr,
        p !! j = Some x → j ∉ idxs →
        pr ∈ PredictionResponse.top_3_predictions r →
        (x <= Prediction.confidence pr)%Q.
Proof.
  intros Hrun. apply predict_run_inv in Hrun as (m & Hm & _ & Hinf).
  apply inference_inv in Hinf
    as (v & logits & p & i0 & Hv & Hlogits & Hp & Hpreds & Hi0 & _ & Hc).
  apply labelled_inv in Hpreds.
  exists m, v, logits, p, (reversed (slice_last 3 (np_argsort p))).
  do 4 (split; [done|]). split; [|split; [|split]].
  - intros x Hx. apply list_elem_of_lookup in Hx as [j Hj].
    rewrite <- (value_at_lookup p j x Hj), <- (value_at_lookup p i0 _ Hc).
    apply top_index_is_argmax; [done|]. by eapply lookup_lt_Some.
  - apply top_indices_NoDup.
  - eapply Forall2_impl; [exact Hpreds|]. by intros i pr [? ?].
  - intros j x pr Hj Hnj Hpr.
    apply list_elem_of_lookup in Hpr as [k Hk].
    destruct (Forall2_lookup_r _ _ _ k pr Hpreds Hk) as (i & Hik & _ & Hi).
    rewrite <- (value_at_lookup p j x Hj), <- (value_at_lookup p i _ Hi).
    apply top_indices_dominate; [|by eapply lookup_lt_Some|done].
    by eapply list_elem_of_lookup_2.
Qed.

Lemma labelled_diseases_NoDup (g : Globals) (labels : list string)
    (p : list Q) (idxs : list nat) (preds : list Prediction.t) :
  disease_labels g = Some labels →
  NoDup labels →
  NoDup idxs →
  labelled g p idxs = Ok preds →
  NoDup (Prediction.disease <$> preds).
Proof.
  intros Hlabels Hnd Hidx Hl. apply labelled_inv in Hl.
  rewrite Hlabels in Hl.
  induction Hl as [|i pr idxs preds [Hd _] Hrest IH]; [constructor|].
  apply NoDup_cons in Hidx as [Hi Hidx]. rewrite fmap_cons.
  apply NoDup_cons. split; [|by apply IH].
  intros Hin. apply list_elem_of_fmap in Hin as (pr' & Heq & Hpr').
  apply list_elem_of_lookup in Hpr' as [k Hk].
  destruct (Forall2_lookup_r _ _ _ k pr' Hrest Hk) as (i' & Hik & Hd' & _).
  apply list_getitem_Ok in Hd, Hd'. rewrite Heq in Hd.
  assert (i = i') as -> by exact (NoDup_lookup labels i i' _ Hnd Hd Hd').
  apply Hi. by eapply list_elem_of_lookup_2.
Qed.

(** X15. When the loaded labels are pairwise different, so are the
    diseases of [top_3_predictions]: no disease is listed twice. *)
Theorem top_3_diseases_distinct
    (g : Globals) (labels symptoms : list string)
    (r : PredictionResponse.t) (log : list Event) :
  disease_labels g = Some labels →
  NoDup labels →
  run (predict_disease g symptoms) = (Ok r, log) →
  NoDup (Prediction.disease <$> PredictionResponse.top_3_predictions r).
Proof.
  intros Hlabels Hnd Hrun.
  apply predict_run_inv in Hrun as (m & _ & _ & Hinf).
  apply inference_inv in Hinf
    as (v & logits & p & i0 & _ & _ & _ & Hpreds & _).
  eapply labelled_diseases_NoDup; [done|done| |exact Hpreds].
  apply top_indices_NoDup.
Qed.

End Largest.

Lemma top_3_are_the_largest_witness :
  ∃ r log,
    run (@predict_disease Ref.runtime Ref.globals ["cough"; "headache"])
    = (Ok r, log)
    ∧ ∀ x, x ∈ Ref.softmax_row [2; 1; 3; 0]%Q →
           (x <= PredictionResponse.confidence r)%Q.
Proof.
  eexists _, _.
  assert (Hrun : run (@predict_disease Ref.runtime Ref.globals
                        ["cough"; "headache"]) = (Ok _, _))
    by (vm_compute; reflexivity).
  split; [exact Hrun|].
  destruct (@top_3_are_the_largest Ref.runtime ref_runtime_contract
              Ref.globals ["cough"; "headache"] _ _ Hrun)
    as (m & v & logits & p & idxs & Hm & Hv & Hlogits & Hp & Hmax & _).
  injection Hm as <-. injection Hv as <-. injection Hlogits as <-.
  injection Hp as <-. exact Hmax.
Defined.

Lemma ref_labels_NoDup : NoDup Ref.labels.
Proof. apply (bool_decide_unpack (NoDup Ref.labels)). by vm_compute. Qed.

Lemma top_3_diseases_distinct_witness :
  ∃ r log,
    run (@predict_disease Ref.runtime Ref.globals ["fever"]) = (Ok r, log)
    ∧ NoDup (Prediction.disease <$> PredictionResponse.top_3_predictions r).
Proof.
  eexists _, _.
  assert (Hrun : run (@predict_disease Ref.runtime Ref.globals ["fever"])
                 = (Ok _, _))
    by (vm_compute; reflexivity).
  split; [exact Hrun|].
  exact (@top_3_diseases_distinct Ref.runtime ref_runtime_contract
           Ref.globals Ref.labels ["fever"] _ _ eq_refl ref_labels_NoDup Hrun).
Defined.

(** ** A configured service *)

Section Configured.
Context `{RuntimeContract}.

(** X16. Once startup has loaded a model, a schema and at least one
    label, and the classifier returns one logit per label, the server
    never answers 500: every request gets a 200, except [/predict] with an
    empty list, which gets the 400. *)
Theorem configured_service_never_fails
    (w : World) (m : KerasModel) (columns labels : list string)
    (requests : list Request) :
  Artifacts w m columns labels →
  Classifier (length columns) (length labels) m →
  labels ≠ [] →
  ∃ responses,
    serve w requests = Served responses
    ∧ ∀ i req, requests !! i = Some req →
        match req with
        | POST_predict [] =>
            responses !! i = Some (ErrorResponse 400 "No symptoms provided")
        | _ => ∃ body, responses !! i = Some (Response 200 body)
        end.
Proof.
  intros Hart Hm Hne. unfold serve.
  rewrite (lifespan_loaded w m columns labels) by done.
  rewrite typed_raw_loaded.
  eexists. split; [reflexivity|]. intros i req Hreq.
  change (map ?f ?l) with (f <$> l). rewrite list_lookup_fmap, Hreq. simpl.
  destruct req as [| | | |[|s ss]|l]; try (by eexists).
  - rewrite respond_predict. unfold run.
    rewrite (predict_disease_run _ m) by done. simpl.
    destruct (inference_total (loaded m columns labels) m columns labels
                (s :: ss) eq_refl eq_refl Hne Hm) as [r ->].
    by eexists.
  - rewrite respond_batch. unfold run.
    rewrite (predict_disease_batch_run _ m) by done. simpl.
    destruct (batch_results_total (loaded m columns labels) m l)
      as [items ->]; [|by eexists].
    intros s _. by eapply inference_total.
Qed.

End Configured.

Lemma configured_service_never_fails_witness :
  ∃ responses,
    @serve Ref.runtime Ref.world
      [GET_root; POST_predict []; POST_predict ["fever"];
       POST_predict_batch [[]; ["zzz"]]]
    = Served responses
    ∧ responses !! 1 = Some (ErrorResponse 400 "No symptoms provided")
    ∧ ∃ body, responses !! 3 = Some (Response 200 body).
Proof.
  destruct (@configured_service_never_fails Ref.runtime ref_runtime_contract
              Ref.world Ref.classifier Ref.columns Ref.labels
              [GET_root; POST_predict []; POST_predict ["fever"];
               POST_predict_batch [[]; ["zzz"]]]
              ref_artifacts ref_classifier ltac:(discriminate))
    as (responses & Hserve & Hat).
  exists responses. split; [exact Hserve|]. split.
  - exact (Hat 1 (POST_predict []) eq_refl).
  - exact (Hat 3 (POST_predict_batch [[]; ["zzz"]]) eq_refl).
Defined.
